(** * ContableMax: derived task status, signup provisioning and row ownership

    A shallow embedding of the parts of the application that carry logic:
    - the JavaScript helpers of the task list and of the dashboard
      ([getStatusBadge], the status filter, [toggleTaskComplete]);
    - the task form's insert/update payload;
    - the SQL migration: tables, foreign keys, row-level-security policies
      and the two trigger functions [handle_new_user], [update_last_login].

    JavaScript strings are byte strings compared code unit by code unit,
    [new Date()] is an explicit argument, SQL statements are functions on
    tables (lists of rows) returning [option] where the statement can raise. *)

From stdpp Require Import gmap strings list pretty.
From Stdlib Require Import NArith ZArith Lia Ascii String.

Local Open Scope string_scope.
Local Open Scope N_scope.

(* ===================================================================== *)
(** ** JavaScript strings and dates *)
(* ===================================================================== *)

Module Js.

(** [a < b] on strings: lexicographic on code units; a proper prefix is
    smaller. *)
Fixpoint lt (a b : string) : bool :=
  match a, b with
  | _, EmptyString => false
  | EmptyString, String _ _ => true
  | String x a', String y b' =>
      if N.ltb (N_of_ascii x) (N_of_ascii y) then true
      else if N.eqb (N_of_ascii x) (N_of_ascii y) then lt a' b'
      else false
  end.

(** [a === b] on strings. *)
Definition seq (a b : string) : bool := String.eqb a b.

(** [s.split(sep)[0]] for a one-character separator: the text before the
    first occurrence of [sep] (all of [s] when there is none). *)
Fixpoint split_head (sep : ascii) (s : string) : string :=
  match s with
  | EmptyString => EmptyString
  | String c s' =>
      if Ascii.eqb c sep then EmptyString else String c (split_head sep s')
  end.

(** One decimal digit. *)
Definition digit (n : N) : ascii := ascii_of_N (48 + n mod 10).

Definition pad2 (n : N) : string :=
  String (digit (n / 10)) (String (digit n) EmptyString).

Definition pad3 (n : N) : string :=
  String (digit (n / 100)) (pad2 n).

Definition pad4 (n : N) : string :=
  String (digit (n / 1000)) (pad3 n).

Definition pad6 (n : N) : string :=
  String (digit (n / 100000)) (String (digit (n / 10000)) (pad4 n)).

(** The UTC calendar fields of a [Date] object (years of the common era;
    [month] counts from 1 as in the ISO text). *)
Record Date := mkDate {
  year : N; month : N; day : N;
  hours : N; minutes : N; seconds : N; millis : N
}.

(** [Date.prototype.toISOString]: [YYYY-MM-DDTHH:mm:ss.sssZ], and the
    expanded form [+YYYYYY-...] for years after 9999. *)
Definition year_text (y : N) : string :=
  if N.leb y 9999 then pad4 y else String "+"%char (pad6 y).

Definition toISOString (d : Date) : string :=
  year_text (year d) ++ "-" ++ pad2 (month d) ++ "-" ++ pad2 (day d) ++ "T"
  ++ pad2 (hours d) ++ ":" ++ pad2 (minutes d) ++ ":" ++ pad2 (seconds d)
  ++ "." ++ pad3 (millis d) ++ "Z".

(** [new Date().toISOString().split('T')[0]] *)
Definition today (now : Date) : string :=
  split_head "T"%char (toISOString now).

(** [s.startsWith(p)] *)
Fixpoint startsWith (s p : string) : bool :=
  match p, s with
  | EmptyString, _ => true
  | String _ _, EmptyString => false
  | String a p', String b s' => Ascii.eqb a b && startsWith s' p'
  end.

(** [s.includes(search)]: [search] occurs somewhere in [s]. *)
Fixpoint includes (s search : string) : bool :=
  startsWith s search
  || match s with
     | EmptyString => false
     | String _ s' => includes s' search
     end.

End Js.

(* ===================================================================== *)
(** ** Calendar dates and their text form *)
(* ===================================================================== *)

(** A calendar day, as a SQL [DATE] column holds it. *)
Record date := mkDay { dyear : N; dmonth : N; dday : N }.

(** The text of a [DATE] value in a query result: [YYYY-MM-DD]. *)
Definition iso_date (d : date) : string :=
  Js.pad4 (dyear d) ++ "-" ++ Js.pad2 (dmonth d) ++ "-" ++ Js.pad2 (dday d).

(** Four-digit years and real months and days. *)
Definition iso_ok (d : date) : Prop :=
  dyear d <= 9999 /\ 1 <= dmonth d <= 12 /\ 1 <= dday d <= 31.

(** Calendar order at day granularity. *)
Definition date_lt (a b : date) : Prop :=
  dyear a < dyear b \/
  (dyear a = dyear b /\
   (dmonth a < dmonth b \/ (dmonth a = dmonth b /\ dday a < dday b))).

(** The calendar day of an instant: its time of day dropped. *)
Definition utc_date (now : Js.Date) : date :=
  mkDay (Js.year now) (Js.month now) (Js.day now).

(* ===================================================================== *)
(** ** Schema: enums and rows *)
(* ===================================================================== *)

(** [CREATE TYPE public.task_status AS ENUM ('pendente','concluida','atrasada')] *)
Inductive task_status := pendente | concluida | atrasada.

Definition status_text (s : task_status) : string :=
  match s with
  | pendente => "pendente"
  | concluida => "concluida"
  | atrasada => "atrasada"
  end.

(** [CREATE TYPE public.task_type AS ENUM ('imposto','folha','declaracao','outro')] *)
Inductive task_type := imposto | folha | declaracao | outro.

(** [CREATE TYPE public.account_type AS ENUM ('contador','escritorio')] *)
Inductive account_type := contador | escritorio.

(** [CREATE TYPE public.person_type AS ENUM ('PF','PJ')] *)
Inductive person_type := PF | PJ.

#[global] Instance task_status_eq_dec : EqDecision task_status.
Proof. solve_decision. Defined.
#[global] Instance task_type_eq_dec : EqDecision task_type.
Proof. solve_decision. Defined.
#[global] Instance account_type_eq_dec : EqDecision account_type.
Proof. solve_decision. Defined.
#[global] Instance person_type_eq_dec : EqDecision person_type.
Proof. solve_decision. Defined.

(** UUIDs are kept as their text. *)
Abbreviation uuid := string (only parsing).

(** [public.tasks]. [due_date] is kept as the text the API returns for it,
    which is what the screens compare. *)
Record task := mkTask {
  task_id : uuid;
  task_user_id : uuid;
  client_id : option uuid;
  title : string;
  description : option string;
  ttype : task_type;
  due_date : string;
  status : task_status;
  task_created_at : N
}.

(** [public.clients] *)
Record client := mkClient {
  cl_id : uuid;
  cl_user_id : uuid;
  cl_name : string;
  cpf_cnpj : string;
  ptype : person_type;
  cl_email : option string;
  cl_phone : option string;
  cl_created_at : N
}.

(** [public.profiles] *)
Record profile := mkProfile {
  pr_id : uuid;
  pr_name : string;
  pr_email : string;
  pr_account_type : account_type;
  pr_created_at : N;
  last_login : option N
}.

(* ===================================================================== *)
(** ** The list screens *)
(* ===================================================================== *)

(** A rendered [<span className=...>text</span>]. *)
Record span := mkSpan { className : string; text : string }.

(** The four indicators, by their style class (the same on both screens). *)
Definition cls_concluida := "status-badge status-concluida".
Definition cls_atrasada := "status-badge status-atrasada".
Definition cls_hoje := "status-badge bg-accent/15 text-accent".
Definition cls_pendente := "status-badge status-pendente".

(** The task list screen. *)
Module Tasks.

Definition getStatusBadge (status dueDate : string) (now : Js.Date) : span :=
  let today := Js.today now in
  if Js.seq status "concluida" then mkSpan cls_concluida "Concluída"
  else if Js.lt dueDate today then mkSpan cls_atrasada "Atrasada"
  else if Js.seq dueDate today then mkSpan cls_hoje "Hoje"
  else mkSpan cls_pendente "Pendente".

(** The body of the [statusFilter] effect: the value given to
    [setFilteredTasks]. *)
Definition filterTasks (statusFilter : string) (tasks : list task)
    (now : Js.Date) : list task :=
  if Js.seq statusFilter "all" then tasks
  else
    let today := Js.today now in
    if Js.seq statusFilter "overdue" then
      List.filter
        (fun t => Js.seq (status_text (status t)) "pendente"
                  && Js.lt (due_date t) today) tasks
    else
      List.filter (fun t => Js.seq (status_text (status t)) statusFilter) tasks.

(** [newStatus] of [toggleTaskComplete]. *)
Definition newStatus (t : task) : task_status :=
  if Js.seq (status_text (status t)) "concluida" then pendente else concluida.

(** What a row of the list shows for a task. *)
Definition badge (t : task) (now : Js.Date) : span :=
  getStatusBadge (status_text (status t)) (due_date t) now.

End Tasks.

(** The dashboard screen. Its label for a completed task is kept byte for
    byte as the source file has it. *)
Module Dashboard.

Definition getStatusBadge (status dueDate : string) (now : Js.Date) : span :=
  let today := Js.today now in
  if Js.seq status "concluida" then mkSpan cls_concluida "Conclu√≠da"
  else if Js.lt dueDate today then mkSpan cls_atrasada "Atrasada"
  else if Js.seq dueDate today then mkSpan cls_hoje "Hoje"
  else mkSpan cls_pendente "Pendente".

Definition badge (t : task) (now : Js.Date) : span :=
  getStatusBadge (status_text (status t)) (due_date t) now.

End Dashboard.

(* ===================================================================== *)
(** ** The database: tables, constraints, policies, triggers *)
(* ===================================================================== *)

(** A scalar of the signup metadata bag ([raw_user_meta_data], jsonb). *)
Inductive json := JNull | JBool (b : bool) | JNum (n : Z) | JStr (s : string).

(** A row of [auth.users], as far as the triggers read it. The screens sign
    up with an e-mail address, so [email] is always there. *)
Record auth_user := mkUser {
  id : uuid;
  email : string;
  raw_user_meta_data : option (gmap string json)
}.

Record state := mkState {
  users : list auth_user;
  profiles : list profile;
  clients : list client;
  tasks : list task
}.

Definition empty_db : state := mkState [] [] [] [].

Module Sql.

(** [j ->> key]: the text of a field, SQL NULL when the bag, the field or
    its value is null. *)
Definition json_text (j : json) : option string :=
  match j with
  | JNull => None
  | JBool true => Some "true"
  | JBool false => Some "false"
  | JNum n => Some (pretty n)
  | JStr s => Some s
  end.

Definition arrow_text (bag : option (gmap string json)) (key : string)
    : option string :=
  match bag with
  | None => None
  | Some m => match m !! key with None => None | Some j => json_text j end
  end.

(** [COALESCE(a, b)] with a non-null second argument. *)
Definition coalesce {A} (a : option A) (b : A) : A :=
  match a with Some x => x | None => b end.

(** The outcome of a cast that can raise. *)
Inductive cast_result (A : Type) := CastNull | CastOk (a : A) | CastError.
Arguments CastNull {A}.
Arguments CastOk {A} a.
Arguments CastError {A}.

(** [(t)::account_type]: NULL stays NULL, a label of the enum is accepted,
    any other text raises "invalid input value for enum". *)
Definition to_account_type (t : option string) : cast_result account_type :=
  match t with
  | None => CastNull
  | Some s =>
      if String.eqb s "contador" then CastOk contador
      else if String.eqb s "escritorio" then CastOk escritorio
      else CastError
  end.

Definition has_id {A} (key : A -> uuid) (k : uuid) (rows : list A) : bool :=
  existsb (fun r => String.eqb (key r) k) rows.

(** A reference that is NULL or points at an existing row. *)
Definition ref_ok {A} (key : A -> uuid) (r : option uuid) (rows : list A)
    : bool :=
  match r with None => true | Some k => has_id key k rows end.

End Sql.

(** *** Triggers *)

(** [public.handle_new_user()], run for the row [NEW] at time [now];
    [None] is a raised error. The columns not listed take their defaults
    ([created_at] and [last_login] default to [now()]); [profiles.id] is
    the primary key. *)
Definition handle_new_user (now : N) (NEW : auth_user) (st : state)
    : option state :=
  let name :=
    Sql.coalesce (Sql.arrow_text (raw_user_meta_data NEW) "name") (email NEW) in
  acct ← match Sql.to_account_type
                 (Sql.arrow_text (raw_user_meta_data NEW) "account_type") with
          | Sql.CastNull => Some contador
          | Sql.CastOk a => Some a
          | Sql.CastError => None
          end;
  if Sql.has_id pr_id (id NEW) (profiles st) then None
  else if negb (Sql.has_id id (id NEW) (users st)) then None
  else
    Some (mkState (users st)
            (profiles st ++ [mkProfile (id NEW) name (email NEW) acct now (Some now)])
            (clients st) (tasks st)).

(** [on_auth_user_created]: [AFTER INSERT ON auth.users FOR EACH ROW].
    The insertion of the identity and the trigger are one statement: an
    error of either leaves no trace ([None]). *)
Definition insert_auth_user (now : N) (u : auth_user) (st : state)
    : option state :=
  if Sql.has_id id (id u) (users st) then None
  else
    handle_new_user now u
      (mkState (users st ++ [u]) (profiles st) (clients st) (tasks st)).

(** [public.update_last_login()], run for the row [NEW] at time [now]. *)
Definition update_last_login (now : N) (NEW : auth_user) (st : state) : state :=
  mkState (users st)
    (List.map
       (fun p =>
          if String.eqb (pr_id p) (id NEW)
          then mkProfile (pr_id p) (pr_name p) (pr_email p) (pr_account_type p)
                 (pr_created_at p) (Some now)
          else p)
       (profiles st))
    (clients st) (tasks st).

(** Modelled from the spec: the binding of [update_last_login] to the
    authentication event (no [CREATE TRIGGER] for it and no sign-in code is
    among the sources). "On each successful authentication event for an
    existing identity, update that identity's Profile's last-login timestamp
    to the current time": one run of the function per successful sign-in,
    with [NEW] the identity's row. *)
Definition sign_in (now : N) (uid : uuid) (st : state) : option state :=
  match List.find (fun u => String.eqb (id u) uid) (users st) with
  | Some u => Some (update_last_login now u st)
  | None => None
  end.

(** *** Row-level security: the data-access layer

    Every statement runs for a caller, [auth.uid()]: the identity of the
    session, or NULL ([None]) without one. A policy [auth.uid() = user_id]
    is false for NULL. *)
Module Rls.

Definition is_owner (caller : option uuid) (owner : uuid) : bool :=
  match caller with Some u => String.eqb u owner | None => false end.

(** The [SET] list of an update: the columns the payload object names. *)
Record task_patch := mkTaskPatch {
  set_title : option string;
  set_description : option (option string);
  set_task_type : option task_type;
  set_due_date : option string;
  set_client_id : option (option uuid);
  set_task_user_id : option uuid;
  set_status : option task_status
}.

Definition apply_task_patch (p : task_patch) (t : task) : task :=
  mkTask (task_id t)
    (default (task_user_id t) (set_task_user_id p))
    (default (client_id t) (set_client_id p))
    (default (title t) (set_title p))
    (default (description t) (set_description p))
    (default (ttype t) (set_task_type p))
    (default (due_date t) (set_due_date p))
    (default (status t) (set_status p))
    (task_created_at t).

Record client_patch := mkClientPatch {
  set_name : option string;
  set_cpf_cnpj : option string;
  set_person_type : option person_type;
  set_email : option (option string);
  set_phone : option (option string);
  set_client_user_id : option uuid
}.

Definition apply_client_patch (p : client_patch) (c : client) : client :=
  mkClient (cl_id c)
    (default (cl_user_id c) (set_client_user_id p))
    (default (cl_name c) (set_name p))
    (default (cpf_cnpj c) (set_cpf_cnpj p))
    (default (ptype c) (set_person_type p))
    (default (cl_email c) (set_email p))
    (default (cl_phone c) (set_phone p))
    (cl_created_at c).

Definition with_tasks (st : state) (ts : list task) : state :=
  mkState (users st) (profiles st) (clients st) ts.

Definition with_clients (st : state) (cs : list client) : state :=
  mkState (users st) (profiles st) cs (tasks st).

(** **** [public.tasks] *)

(** [FOR SELECT USING (auth.uid() = user_id)] *)
Definition select_tasks (caller : option uuid) (where_ : task -> bool)
    (st : state) : list task :=
  List.filter (fun t => is_owner caller (task_user_id t) && where_ t) (tasks st).

(** [FOR INSERT WITH CHECK (auth.uid() = user_id)], then the primary key and
    the two foreign keys. *)
Definition insert_task (caller : option uuid) (row : task) (st : state)
    : option state :=
  if negb (is_owner caller (task_user_id row)) then None
  else if Sql.has_id task_id (task_id row) (tasks st) then None
  else if negb (Sql.has_id pr_id (task_user_id row) (profiles st)) then None
  else if negb (Sql.ref_ok cl_id (client_id row) (clients st)) then None
  else Some (with_tasks st (tasks st ++ [row])).

(** [FOR UPDATE USING (auth.uid() = user_id)]: rows the policy hides are
    skipped; with no [WITH CHECK] the same expression is checked on the new
    row, and a changed reference must point at an existing row. *)
Definition update_task_row (caller : option uuid) (where_ : task -> bool)
    (p : task_patch) (st : state) (t : task) : option task :=
  if is_owner caller (task_user_id t) && where_ t then
    let t' := apply_task_patch p t in
    if negb (is_owner caller (task_user_id t')) then None
    else if negb (String.eqb (task_user_id t') (task_user_id t)
                  || Sql.has_id pr_id (task_user_id t') (profiles st)) then None
    else if negb (bool_decide (client_id t' = client_id t)
                  || Sql.ref_ok cl_id (client_id t') (clients st)) then None
    else Some t'
  else Some t.

Definition update_tasks (caller : option uuid) (where_ : task -> bool)
    (p : task_patch) (st : state) : option state :=
  ts ← mapM (update_task_row caller where_ p st) (tasks st);
  Some (with_tasks st ts).

(** [FOR DELETE USING (auth.uid() = user_id)] *)
Definition delete_tasks (caller : option uuid) (where_ : task -> bool)
    (st : state) : state :=
  with_tasks st
    (List.filter
       (fun t => negb (is_owner caller (task_user_id t) && where_ t))
       (tasks st)).

(** **** [public.clients] *)

Definition select_clients (caller : option uuid) (where_ : client -> bool)
    (st : state) : list client :=
  List.filter (fun c => is_owner caller (cl_user_id c) && where_ c) (clients st).

Definition insert_client (caller : option uuid) (row : client) (st : state)
    : option state :=
  if negb (is_owner caller (cl_user_id row)) then None
  else if Sql.has_id cl_id (cl_id row) (clients st) then None
  else if negb (Sql.has_id pr_id (cl_user_id row) (profiles st)) then None
  else Some (with_clients st (clients st ++ [row])).

Definition update_client_row (caller : option uuid) (where_ : client -> bool)
    (p : client_patch) (st : state) (c : client) : option client :=
  if is_owner caller (cl_user_id c) && where_ c then
    let c' := apply_client_patch p c in
    if negb (is_owner caller (cl_user_id c')) then None
    else if negb (String.eqb (cl_user_id c') (cl_user_id c)
                  || Sql.has_id pr_id (cl_user_id c') (profiles st)) then None
    else Some c'
  else Some c.

Definition update_clients (caller : option uuid) (where_ : client -> bool)
    (p : client_patch) (st : state) : option state :=
  cs ← mapM (update_client_row caller where_ p st) (clients st);
  Some (with_clients st cs).

(** [tasks.client_id ... REFERENCES public.clients(id) ON DELETE SET NULL]:
    the action of the foreign key on one task when the rows [gone] leave
    [public.clients]. It is run by the constraint, outside the policies. *)
Definition on_delete_set_null (gone : list client) (t : task) : task :=
  match client_id t with
  | Some k =>
      if Sql.has_id cl_id k gone
      then mkTask (task_id t) (task_user_id t) None (title t) (description t)
             (ttype t) (due_date t) (status t) (task_created_at t)
      else t
  | None => t
  end.

(** [FOR DELETE USING (auth.uid() = user_id)] on clients, with the action
    of the foreign key of [public.tasks]. *)
Definition delete_clients (caller : option uuid) (where_ : client -> bool)
    (st : state) : state :=
  let hit c := is_owner caller (cl_user_id c) && where_ c in
  let gone := List.filter hit (clients st) in
  mkState (users st) (profiles st)
    (List.filter (fun c => negb (hit c)) (clients st))
    (List.map (on_delete_set_null gone) (tasks st)).

End Rls.

(* ===================================================================== *)
(** ** The screens' mutations *)
(* ===================================================================== *)

(** [x || null] on an optional form field: missing and empty both give
    null. *)
Definition or_null (x : option string) : option string :=
  match x with
  | Some s => if String.eqb s "" then None else Some s
  | None => None
  end.

(** A statement that raised is caught by the screen and changes nothing. *)
Definition attempt (r : option state) (st : state) : state :=
  match r with Some st' => st' | None => st end.

(** [x || ''] on a nullable text column. *)
Definition or_empty (x : option string) : string :=
  match x with Some s => s | None => "" end.

Module TaskFormPage.

(** [TaskFormData], after validation. *)
Record TaskFormData := mkTaskForm {
  f_title : string;
  f_description : option string;
  f_task_type : task_type;
  f_due_date : string;
  f_client_id : option string
}.

(** The [taskData] object of [onSubmit]: six columns, no [status]. *)
Definition taskData (user_id : uuid) (data : TaskFormData) : Rls.task_patch :=
  Rls.mkTaskPatch
    (Some (f_title data))
    (Some (or_null (f_description data)))
    (Some (f_task_type data))
    (Some (f_due_date data))
    (Some (or_null (f_client_id data)))
    (Some user_id)
    None.

(** The row [insert(taskData)] asks for: the columns the object leaves out
    take their defaults, [id] from [gen_random_uuid()] (here [fresh]),
    [status] ['pendente'], [created_at] [now()]. *)
Definition inserted_row (user_id : uuid) (data : TaskFormData)
    (fresh : uuid) (now : N) : task :=
  mkTask fresh user_id (or_null (f_client_id data)) (f_title data)
    (or_null (f_description data)) (f_task_type data) (f_due_date data)
    pendente now.

(** [onSubmit]: [user] is the session's user (also the caller of the
    statements), [editing] the [id] of the route when there is one. *)
Definition onSubmit (user : option uuid) (editing : option uuid)
    (data : TaskFormData) (fresh : uuid) (now : N) (st : state) : state :=
  match user with
  | None => st
  | Some uid =>
      match editing with
      | Some tid =>
          attempt
            (Rls.update_tasks user (fun t => String.eqb (task_id t) tid)
               (taskData uid data) st) st
      | None =>
          attempt (Rls.insert_task user (inserted_row uid data fresh now) st) st
      end
  end.

(** The values [fetchTask] hands to [reset] for the row it found. *)
Definition loaded (t : task) : TaskFormData :=
  mkTaskForm (title t) (Some (or_empty (description t))) (ttype t)
    (due_date t) (or_null (client_id t)).

(** [fetchTask]: [select('*').eq('id', id).maybeSingle()]; the form is
    filled when the query finds one row (none: nothing to fill; several:
    an error). *)
Definition fetchTask (caller : option uuid) (tid : uuid) (st : state)
    : option TaskFormData :=
  match Rls.select_tasks caller (fun t => String.eqb (task_id t) tid) st with
  | [t] => Some (loaded t)
  | _ => None
  end.

End TaskFormPage.

Module TasksPage.

(** The payload [{ status: newStatus }]. *)
Definition status_patch (s : task_status) : Rls.task_patch :=
  Rls.mkTaskPatch None None None None None None (Some s).

(** [toggleTaskComplete(task)]: [task] is the object held by the list, the
    statement addresses the row by its [id]. *)
Definition toggleTaskComplete (caller : option uuid) (t : task) (st : state)
    : state :=
  attempt
    (Rls.update_tasks caller (fun r => String.eqb (task_id r) (task_id t))
       (status_patch (Tasks.newStatus t)) st) st.

End TasksPage.

Module ClientFormPage.

Record ClientForm := mkClientForm {
  f_name : string;
  f_cpf_cnpj : string;
  f_person_type : person_type;
  f_email : option string;
  f_phone : option string
}.

Definition clientData (user_id : uuid) (data : ClientForm) : Rls.client_patch :=
  Rls.mkClientPatch
    (Some (f_name data))
    (Some (f_cpf_cnpj data))
    (Some (f_person_type data))
    (Some (or_null (f_email data)))
    (Some (or_null (f_phone data)))
    (Some user_id).

Definition inserted_row (user_id : uuid) (data : ClientForm)
    (fresh : uuid) (now : N) : client :=
  mkClient fresh user_id (f_name data) (f_cpf_cnpj data) (f_person_type data)
    (or_null (f_email data)) (or_null (f_phone data)) now.

Definition onSubmit (user : option uuid) (editing : option uuid)
    (data : ClientForm) (fresh : uuid) (now : N) (st : state) : state :=
  match user with
  | None => st
  | Some uid =>
      match editing with
      | Some cid =>
          attempt
            (Rls.update_clients user (fun c => String.eqb (cl_id c) cid)
               (clientData uid data) st) st
      | None =>
          attempt (Rls.insert_client user (inserted_row uid data fresh now) st) st
      end
  end.

(** The values [fetchClient] hands to [reset] for the row it found. *)
Definition loaded (c : client) : ClientForm :=
  mkClientForm (cl_name c) (cpf_cnpj c) (ptype c)
    (Some (or_empty (cl_email c))) (Some (or_empty (cl_phone c))).

Definition fetchClient (caller : option uuid) (cid : uuid) (st : state)
    : option ClientForm :=
  match Rls.select_clients caller (fun c => String.eqb (cl_id c) cid) st with
  | [c] => Some (loaded c)
  | _ => None
  end.

End ClientFormPage.

Module ClientsPage.

(** [handleDelete]: nothing without a [deleteId] (an empty one counts as
    none), else [delete().eq('id', deleteId)]. *)
Definition handleDelete (caller : option uuid) (deleteId : option string)
    (st : state) : state :=
  match or_null deleteId with
  | None => st
  | Some cid => Rls.delete_clients caller (fun c => String.eqb (cl_id c) cid) st
  end.

(** The search effect: the value given to [setFilteredClients]. An empty
    search shows every client. [toLowerCase] is the built-in of the
    language, taken as it comes. *)
Definition filterClients (toLowerCase : string -> string) (search : string)
    (clients : list client) : list client :=
  if String.eqb search "" then clients
  else
    List.filter
      (fun c => Js.includes (toLowerCase (cl_name c)) (toLowerCase search)
                || Js.includes (cpf_cnpj c) search)
      clients.

End ClientsPage.

Module ProfilePage.

(** [onProfileSubmit]: [update({ name }).eq('id', profile.id)] under the
    policy [FOR UPDATE USING (auth.uid() = id)]. *)
Definition onProfileSubmit (caller : option uuid) (profile_id : option uuid)
    (name : string) (st : state) : state :=
  match profile_id with
  | None => st
  | Some pid =>
      mkState (users st)
        (List.map
           (fun p =>
              if Rls.is_owner caller (pr_id p) && String.eqb (pr_id p) pid
              then mkProfile (pr_id p) name (pr_email p) (pr_account_type p)
                     (pr_created_at p) (last_login p)
              else p)
           (profiles st))
        (clients st) (tasks st)
  end.

End ProfilePage.

(** Everything a session of the application can do to the database. *)
Inductive action :=
| SignUp (now : N) (u : auth_user)
| SignIn (now : N) (uid : uuid)
| SaveTask (user editing : option uuid) (data : TaskFormPage.TaskFormData)
    (fresh : uuid) (now : N)
| ToggleTask (caller : option uuid) (t : task)
| SaveClient (user editing : option uuid) (data : ClientFormPage.ClientForm)
    (fresh : uuid) (now : N)
| DeleteClient (caller : option uuid) (deleteId : option string)
| SaveProfile (caller profile_id : option uuid) (name : string).

Definition exec (a : action) (st : state) : state :=
  match a with
  | SignUp now u => attempt (insert_auth_user now u st) st
  | SignIn now uid => attempt (sign_in now uid st) st
  | SaveTask user editing data fresh now =>
      TaskFormPage.onSubmit user editing data fresh now st
  | ToggleTask caller t => TasksPage.toggleTaskComplete caller t st
  | SaveClient user editing data fresh now =>
      ClientFormPage.onSubmit user editing data fresh now st
  | DeleteClient caller deleteId => ClientsPage.handleDelete caller deleteId st
  | SaveProfile caller pid name => ProfilePage.onProfileSubmit caller pid name st
  end.

(** The database after a history of actions, oldest first. *)
Definition run (history : list action) (st : state) : state :=
  fold_left (fun s a => exec a s) history st.

(* ===================================================================== *)
(** ** Derived notions used in the statements *)
(* ===================================================================== *)

(** The "overdue" indicator, the same span on both screens. *)
Definition span_atrasada : span := mkSpan cls_atrasada "Atrasada".

(** The "due today" indicator. *)
Definition span_hoje : span := mkSpan cls_hoje "Hoje".

(** The row of [t] once the statement of [toggleTaskComplete(t)] has run
    on it. *)
Definition toggled (t : task) : task :=
  Rls.apply_task_patch (TasksPage.status_patch (Tasks.newStatus t)) t.

(** A stored status the application writes itself. *)
Definition written_status (s : task_status) : Prop :=
  s = pendente \/ s = concluida.

(** The profiles of an identity. *)
Definition profiles_of (uid : uuid) (st : state) : list profile :=
  List.filter (fun p => String.eqb (pr_id p) uid) (profiles st).

(** Each identity has exactly one profile. *)
Definition one_profile_each (st : state) : Prop :=
  Forall (fun w => List.length (profiles_of (id w) st) = 1%nat) (users st).

(** The database once the identity [u] and the profile [p] are in. *)
Definition signed_up (u : auth_user) (p : profile) (st : state) : state :=
  mkState (users st ++ [u]) (profiles st ++ [p]) (clients st) (tasks st).

(** The last-login timestamp of an identity's profile (none without a
    profile or while the column is NULL). *)
Definition last_login_of (uid : uuid) (st : state) : option N :=
  p ← List.find (fun p => String.eqb (pr_id p) uid) (profiles st);
  last_login p.

(** Successive sign-ins of one identity at the given times, and the
    [last_login] read after each of them. *)
Fixpoint login_trace (uid : uuid) (times : list N) (st : state)
    : list (option N) :=
  match times with
  | [] => []
  | now :: rest =>
      let st' := attempt (sign_in now uid st) st in
      last_login_of uid st' :: login_trace uid rest st'
  end.

Definition sign_ins (uid : uuid) (times : list N) (st : state) : state :=
  run (List.map (fun now => SignIn now uid) times) st.

(** The rewriting of one profile by [update_last_login]. *)
Definition stamp (now : N) (uid : uuid) (p : profile) : profile :=
  if String.eqb (pr_id p) uid
  then mkProfile (pr_id p) (pr_name p) (pr_email p) (pr_account_type p)
         (pr_created_at p) (Some now)
  else p.

(** The rows of one owner. *)
Definition tasks_of (owner : uuid) (st : state) : list task :=
  List.filter (fun t => String.eqb (task_user_id t) owner) (tasks st).

Definition clients_of (owner : uuid) (st : state) : list client :=
  List.filter (fun c => String.eqb (cl_user_id c) owner) (clients st).

(** A client of id [k] that [st] has and [st'] has not. *)
Definition removed_client (st st' : state) (k : uuid) : Prop :=
  exists c, In c (clients st) /\ ~ In c (clients st') /\ cl_id c = k.

(** Two task rows that agree on every column but [client_id]. *)
Definition same_but_client (t t' : task) : Prop :=
  task_id t' = task_id t /\ task_user_id t' = task_user_id t /\
  title t' = title t /\ description t' = description t /\
  ttype t' = ttype t /\ due_date t' = due_date t /\
  status t' = status t /\ task_created_at t' = task_created_at t.

(** A sequence of timestamps that never goes back. *)
Definition non_decreasing (l : list N) : Prop :=
  forall (i j : nat) (a b : N),
    (i <= j)%nat -> l !! i = Some a -> l !! j = Some b -> a <= b.

(** Every reference points at a row that exists: a task's client and
    owner, a client's owner, a profile's identity. *)
Definition refs_ok (st : state) : Prop :=
  Forall (fun t => Sql.ref_ok cl_id (client_id t) (clients st) = true /\
                   Sql.has_id pr_id (task_user_id t) (profiles st) = true)
    (tasks st) /\
  Forall (fun c => Sql.has_id pr_id (cl_user_id c) (profiles st) = true)
    (clients st) /\
  Forall (fun p => Sql.has_id id (pr_id p) (users st) = true) (profiles st).

(** No two rows of a table share their primary key. *)
Definition keys_unique (st : state) : Prop :=
  List.NoDup (List.map id (users st)) /\
  List.NoDup (List.map pr_id (profiles st)) /\
  List.NoDup (List.map cl_id (clients st)) /\
  List.NoDup (List.map task_id (tasks st)).

(** No optional text column holds the empty text. *)
Definition no_empty_text (st : state) : Prop :=
  Forall (fun t => description t <> Some "" /\ client_id t <> Some "")
    (tasks st) /\
  Forall (fun c => cl_email c <> Some "" /\ cl_phone c <> Some "") (clients st).

(** The indicator for a task that is neither completed, late nor due
    today. *)
Definition span_pendente : span := mkSpan cls_pendente "Pendente".

(** *** The viewer's own calendar day

    The screens never read it; it is what the description of the list
    views means by the current date ("the viewer's local date"), defined
    here to set the code against it. A viewer's clock is [offset] minutes
    ahead of UTC (negative west of Greenwich, at most a day either way). *)
Definition leap_year (y : N) : bool :=
  ((y mod 4 =? 0) && negb (y mod 100 =? 0)) || (y mod 400 =? 0).

Definition days_in_month (y m : N) : N :=
  if m =? 2 then (if leap_year y then 29 else 28)
  else if (m =? 4) || (m =? 6) || (m =? 9) || (m =? 11) then 30
  else 31.

Definition prev_day (d : date) : date :=
  if 1 <? dday d then mkDay (dyear d) (dmonth d) (dday d - 1)
  else if 1 <? dmonth d
       then mkDay (dyear d) (dmonth d - 1) (days_in_month (dyear d) (dmonth d - 1))
       else mkDay (dyear d - 1) 12 31.

Definition next_day (d : date) : date :=
  if dday d <? days_in_month (dyear d) (dmonth d)
  then mkDay (dyear d) (dmonth d) (dday d + 1)
  else if dmonth d <? 12 then mkDay (dyear d) (dmonth d + 1) 1
       else mkDay (dyear d + 1) 1 1.

Definition viewer_local_date (now : Js.Date) (offset : Z) : date :=
  let minute_of_day :=
    (Z.of_N (Js.hours now * 60 + Js.minutes now) + offset)%Z in
  if (minute_of_day <? 0)%Z then prev_day (utc_date now)
  else if (1440 <=? minute_of_day)%Z then next_day (utc_date now)
  else utc_date now.

(** Half past ten in the evening of 1 January 2024 in São Paulo (three
    hours behind UTC): the instant 2024-01-02T01:30:00.000Z. *)
Definition sao_paulo : Z := (-180)%Z.
Definition jan1_late_evening : Js.Date := Js.mkDate 2024 1 2 1 30 0 0.

(** Sample data. *)
Definition ana : auth_user :=
  mkUser "u-1" "ana@example.com"
    (Some (<["name" := JStr "Ana Souza"]> {["account_type" := JStr "escritorio"]})).
Definition bruno : auth_user := mkUser "u-2" "bruno@example.com" None.
Definition carla : auth_user :=
  mkUser "u-3" "carla@example.com" (Some {["account_type" := JStr "admin"]}).
Definition client_form : ClientFormPage.ClientForm :=
  ClientFormPage.mkClientForm "Padaria Sol" "12345678000190" PJ (Some "") None.
Definition task_form (c : option string) : TaskFormPage.TaskFormData :=
  TaskFormPage.mkTaskForm "IRPF 2024" None imposto "2024-01-01" c.

(** Ana and Bruno have signed up; Bruno has a client and a task for it. *)
Definition office : state :=
  run [SignUp 1 ana; SignUp 2 bruno;
       SaveClient (Some "u-2") None client_form "c-1" 3;
       SaveTask (Some "u-2") None (task_form (Some "c-1")) "t-2" 4]
    empty_db.

(** Ana then stores a task of her own that points at Bruno's client. *)
Definition office_shared : state :=
  exec (SaveTask (Some "u-1") None (task_form (Some "c-1")) "t-1" 5) office.
Definition jan1 : date := mkDay 2024 1 1.
Definition jan2_morning : Js.Date := Js.mkDate 2024 1 2 9 30 0 0.
Definition sample_task (s : task_status) (due : string) : task :=
  mkTask "t-1" "u-1" None "IRPF 2024" None imposto due s 0.

(* ===================================================================== *)
(** ** Text order of ISO dates *)
(* ===================================================================== *)

Section IsoText.

Local Ltac euclid := Z.to_euclidean_division_equations; lia.
Local Ltac arith := zify; euclid.

Lemma app_cons (c : ascii) (s t : string) :
  String c s ++ t = String c (s ++ t).
Proof. reflexivity. Qed.

Lemma app_empty (t : string) : "" ++ t = t.
Proof. reflexivity. Qed.

Lemma N_of_digit (n : N) : N_of_ascii (Js.digit n) = 48 + n mod 10.
Proof.
  unfold Js.digit. apply N_ascii_embedding.
  assert (n mod 10 < 10) by (apply N.mod_lt; lia). lia.
Qed.

Lemma lt_irrefl (s : string) : Js.lt s s = false.
Proof.
  induction s as [|c s IH]; simpl; [reflexivity|].
  rewrite N.ltb_irrefl, N.eqb_refl. exact IH.
Qed.

Lemma lt_same_head (c : ascii) (s t : string) :
  Js.lt (String c s) (String c t) = Js.lt s t.
Proof. simpl. now rewrite N.ltb_irrefl, N.eqb_refl. Qed.

Lemma lt_cons_digit (a b : N) (s t : string) :
  Js.lt (String (Js.digit a) s) (String (Js.digit b) t) =
  if a mod 10 <? b mod 10 then true
  else if a mod 10 =? b mod 10 then Js.lt s t else false.
Proof.
  simpl. rewrite !N_of_digit.
  destruct (N.ltb_spec (a mod 10) (b mod 10)) as [H|H].
  - assert (E : (48 + a mod 10 <? 48 + b mod 10) = true) by (apply N.ltb_lt; lia).
    now rewrite E.
  - assert (E : (48 + a mod 10 <? 48 + b mod 10) = false) by (apply N.ltb_ge; lia).
    rewrite E.
    destruct (N.eqb_spec (a mod 10) (b mod 10)) as [H'|H'].
    + rewrite H'. now rewrite N.eqb_refl.
    + assert (E' : (48 + a mod 10 =? 48 + b mod 10) = false)
        by (apply N.eqb_neq; lia).
      now rewrite E'.
Qed.

(** Two digits in front of a text: compared as the number they spell. *)
Lemma lt_pad2 (a b : N) (s t : string) :
  a < 100 -> b < 100 ->
  Js.lt (Js.pad2 a ++ s) (Js.pad2 b ++ t) =
  if a <? b then true else if a =? b then Js.lt s t else false.
Proof.
  intros Ha Hb. unfold Js.pad2. rewrite !app_cons, !app_empty.
  rewrite !lt_cons_digit.
  repeat match goal with
  | |- context [N.ltb ?x ?y] => destruct (N.ltb_spec x y)
  | |- context [N.eqb ?x ?y] => destruct (N.eqb_spec x y)
  end; try reflexivity; exfalso; arith.
Qed.

Lemma digit_mod (a b : N) : a mod 10 = b mod 10 -> Js.digit a = Js.digit b.
Proof. unfold Js.digit. now intros ->. Qed.

Lemma pad4_split (a : N) (s : string) :
  Js.pad4 a ++ s = Js.pad2 (a / 100) ++ (Js.pad2 (a mod 100) ++ s).
Proof.
  unfold Js.pad4, Js.pad3, Js.pad2. rewrite !app_cons, !app_empty.
  rewrite (digit_mod (a / 100 / 10) (a / 1000)) by arith.
  rewrite (digit_mod (a mod 100 / 10) (a / 10)) by arith.
  rewrite (digit_mod (a mod 100) a) by arith.
  reflexivity.
Qed.

(** Four digits in front of a text. *)
Lemma lt_pad4 (a b : N) (s t : string) :
  a < 10000 -> b < 10000 ->
  Js.lt (Js.pad4 a ++ s) (Js.pad4 b ++ t) =
  if a <? b then true else if a =? b then Js.lt s t else false.
Proof.
  intros Ha Hb. rewrite !pad4_split.
  rewrite lt_pad2 by arith. rewrite lt_pad2 by arith.
  repeat match goal with
  | |- context [N.ltb ?x ?y] => destruct (N.ltb_spec x y)
  | |- context [N.eqb ?x ?y] => destruct (N.eqb_spec x y)
  end; try reflexivity; exfalso; arith.
Qed.

Lemma app_empty_r (s : string) : s ++ "" = s.
Proof. induction s as [|c s IH]; [reflexivity|]. now rewrite app_cons, IH. Qed.

Lemma lt_dash (s t : string) : Js.lt ("-" ++ s) ("-" ++ t) = Js.lt s t.
Proof. apply (lt_same_head "-"%char). Qed.

(** On well-formed dates the text order is the calendar order. *)
Lemma lt_iso_date (a b : date) :
  iso_ok a -> iso_ok b ->
  Js.lt (iso_date a) (iso_date b) = true <-> date_lt a b.
Proof.
  intros (Hy & Hm & Hd) (Hy' & Hm' & Hd'). unfold iso_date, date_lt.
  rewrite <- (app_empty_r (Js.pad2 (dday a))), <- (app_empty_r (Js.pad2 (dday b))).
  rewrite lt_pad4 by lia. rewrite lt_dash.
  rewrite lt_pad2 by lia. rewrite lt_dash.
  rewrite lt_pad2 by lia. cbn [Js.lt].
  repeat match goal with
  | |- context [N.ltb ?x ?y] => destruct (N.ltb_spec x y)
  | |- context [N.eqb ?x ?y] => destruct (N.eqb_spec x y)
  end; split; intros Hgoal; try discriminate; try reflexivity; lia.
Qed.

(** Distinct well-formed dates have distinct texts. *)
Lemma iso_date_inj (a b : date) :
  iso_ok a -> iso_ok b -> iso_date a = iso_date b -> a = b.
Proof.
  intros Ha Hb E.
  assert (Hab : ~ date_lt a b).
  { intros H. apply (lt_iso_date a b Ha Hb) in H.
    rewrite E, lt_irrefl in H. discriminate. }
  assert (Hba : ~ date_lt b a).
  { intros H. apply (lt_iso_date b a Hb Ha) in H.
    rewrite E, lt_irrefl in H. discriminate. }
  unfold date_lt in Hab, Hba. destruct a as [y m d], b as [y' m' d'].
  simpl in *. f_equal; lia.
Qed.

Lemma digit_not_T (n : N) : Ascii.eqb (Js.digit n) "T" = false.
Proof.
  apply Ascii.eqb_neq. intros H. apply (f_equal N_of_ascii) in H.
  rewrite N_of_digit in H. simpl in H.
  assert (n mod 10 < 10) by (apply N.mod_lt; lia). lia.
Qed.

Lemma split_head_cons (sep c : ascii) (s : string) :
  Ascii.eqb c sep = false ->
  Js.split_head sep (String c s) = String c (Js.split_head sep s).
Proof. intros H. simpl. now rewrite H. Qed.

Lemma split_head_hit (sep : ascii) (s : string) :
  Js.split_head sep (String sep s) = "".
Proof. simpl. now rewrite Ascii.eqb_refl. Qed.

(** [today] is the text of the calendar day of [now]: the time of day does
    not reach it. *)
Lemma today_iso (now : Js.Date) :
  Js.year now <= 9999 -> Js.today now = iso_date (utc_date now).
Proof.
  intros Hy. unfold Js.today, Js.toISOString, Js.year_text, iso_date, utc_date.
  cbn [dyear dmonth dday].
  assert (E : (Js.year now <=? 9999) = true) by (apply N.leb_le; exact Hy).
  rewrite E. unfold Js.pad4, Js.pad3, Js.pad2.
  rewrite !app_cons, !app_empty.
  repeat (rewrite split_head_cons by (apply digit_not_T || reflexivity)).
  rewrite split_head_hit. reflexivity.
Qed.

End IsoText.

(* ===================================================================== *)
(** ** The derived status of the list screens *)
(* ===================================================================== *)

Section DerivedStatus.

Lemma seq_concluida (s : task_status) :
  Js.seq (status_text s) "concluida" = bool_decide (s = concluida).
Proof. destruct s; reflexivity. Qed.

Lemma seq_pendente (s : task_status) :
  Js.seq (status_text s) "pendente" = bool_decide (s = pendente).
Proof. destruct s; reflexivity. Qed.

(** Both screens decide alike; only the text of the completed label
    differs. *)
Lemma badge_overdue_iff (t : task) (now : Js.Date) :
  (Tasks.badge t now = span_atrasada <->
   status t <> concluida /\ Js.lt (due_date t) (Js.today now) = true) /\
  (Dashboard.badge t now = span_atrasada <->
   status t <> concluida /\ Js.lt (due_date t) (Js.today now) = true).
Proof.
  unfold Tasks.badge, Dashboard.badge, Tasks.getStatusBadge,
    Dashboard.getStatusBadge, span_atrasada.
  destruct (status t); cbn [status_text];
    match goal with
    | |- context [Js.seq ?a "concluida"] =>
        let b := eval vm_compute in (Js.seq a "concluida") in
        change (Js.seq a "concluida") with b
    end; cbv iota;
    destruct (Js.lt (due_date t) (Js.today now));
    try destruct (Js.seq (due_date t) (Js.today now));
    (split; (split;
     [ intros E; first [ discriminate E | split; [discriminate | reflexivity] ]
     | intros [E1 E2]; first [ reflexivity | discriminate E2 | now destruct E1 ] ])).
Qed.

Lemma filter_overdue_iff (t : task) (ts : list task) (now : Js.Date) :
  In t (Tasks.filterTasks "overdue" ts now) <->
  In t ts /\ status t = pendente /\ Js.lt (due_date t) (Js.today now) = true.
Proof.
  unfold Tasks.filterTasks.
  change (Js.seq "overdue" "all") with false.
  change (Js.seq "overdue" "overdue") with true. cbv iota.
  rewrite filter_In, andb_true_iff, seq_pendente, bool_decide_eq_true.
  reflexivity.
Qed.

End DerivedStatus.

(** The text comparison of the screens, read as a comparison of days. *)
Lemma lt_today_iff (t : task) (now : Js.Date) (due : date) :
  due_date t = iso_date due -> iso_ok due -> iso_ok (utc_date now) ->
  Js.lt (due_date t) (Js.today now) = true <-> date_lt due (utc_date now).
Proof.
  intros Hdue Hok Hnow. rewrite Hdue, today_iso by apply Hnow.
  now apply lt_iso_date.
Qed.

(** A row stored as "atrasada" with a past due date: the badge, which
    tests the stored status against "concluida" only, marks it overdue,
    while the overdue filter, which tests it against "pendente", leaves it
    out. *)
Lemma overdue_badge_on_stored_atrasada :
  let t := sample_task atrasada "2024-01-01" in
  Tasks.badge t jan2_morning = span_atrasada /\
  Dashboard.badge t jan2_morning = span_atrasada /\
  Tasks.filterTasks "overdue" [t] jan2_morning = [] /\
  ~ (Tasks.badge t jan2_morning = span_atrasada <->
     status t = pendente /\ date_lt jan1 (utc_date jan2_morning)).
Proof.
  cbv zeta. repeat split; try reflexivity.
  intros [H _]. destruct (H eq_refl) as [E _]. discriminate E.
Qed.

(** What the screens compute, read on the UTC day of the instant. For a
    task with a well-formed due date, seen at an instant of a four-digit
    year: both screens show the overdue indicator exactly when the stored
    status is not "concluida" and the due day is strictly before the UTC
    calendar day of the instant; for the stored statuses "pendente" and
    "concluida", exactly when the status is "pendente" and the due day is
    before that day. The "overdue" filter keeps exactly the tasks whose
    stored status is "pendente" and whose due day is before that day. *)
Theorem overdue_classification (t : task) (now : Js.Date) (due : date) :
  due_date t = iso_date due -> iso_ok due -> iso_ok (utc_date now) ->
  (Tasks.badge t now = span_atrasada <->
   status t <> concluida /\ date_lt due (utc_date now)) /\
  (Dashboard.badge t now = span_atrasada <->
   status t <> concluida /\ date_lt due (utc_date now)) /\
  (status t <> atrasada ->
   (Tasks.badge t now = span_atrasada <->
    status t = pendente /\ date_lt due (utc_date now)) /\
   (Dashboard.badge t now = span_atrasada <->
    status t = pendente /\ date_lt due (utc_date now))) /\
  (forall ts : list task,
     In t (Tasks.filterTasks "overdue" ts now) <->
     In t ts /\ status t = pendente /\ date_lt due (utc_date now)).
Proof.
  intros Hdue Hok Hnow.
  pose proof (lt_today_iff t now due Hdue Hok Hnow) as Hlt.
  destruct (badge_overdue_iff t now) as [HT HD].
  rewrite Hlt in HT, HD.
  split; [exact HT|]. split; [exact HD|]. split.
  - intros Hna. rewrite HT, HD.
    assert (Hs : status t <> concluida <-> status t = pendente)
      by (destruct (status t); split; congruence).
    rewrite Hs. split; reflexivity.
  - intros ts. rewrite filter_overdue_iff, Hlt. reflexivity.
Qed.

Lemma overdue_classification_witness :
  Tasks.badge (sample_task pendente "2024-01-01") jan2_morning = span_atrasada /\
  In (sample_task pendente "2024-01-01")
     (Tasks.filterTasks "overdue"
        [sample_task concluida "2024-01-01"; sample_task pendente "2024-01-01"]
        jan2_morning).
Proof.
  assert (Hok : iso_ok jan1) by (unfold iso_ok, jan1; simpl; lia).
  assert (Hnow : iso_ok (utc_date jan2_morning))
    by (unfold iso_ok, jan2_morning; simpl; lia).
  assert (Hlt : date_lt jan1 (utc_date jan2_morning))
    by (unfold date_lt, jan1, jan2_morning; simpl; lia).
  destruct (overdue_classification (sample_task pendente "2024-01-01")
              jan2_morning jan1 eq_refl Hok Hnow) as (_ & _ & Hstored & HF).
  split.
  - apply Hstored; [discriminate | split; [reflexivity | exact Hlt]].
  - apply HF. split; [right; left; reflexivity | split; [reflexivity | exact Hlt]].
Defined.

(** The four-digit reading is needed: a due date typed with a five-digit
    year sorts, as text, before today. *)
Example far_future_reads_as_overdue :
  Tasks.badge (sample_task pendente "10000-01-01") jan2_morning = span_atrasada.
Proof. reflexivity. Qed.

(** What the screens compute for the day itself and for completed
    tasks. A pending task due on the UTC calendar day of the instant shows
    the "due today" indicator on both screens (not the generic pending
    one), and a task marked "concluida" shows the completed indicator
    whatever its due date; the list labels it "Concluída". *)
Theorem due_today_and_completed (t : task) (now : Js.Date) :
  Js.year now <= 9999 ->
  (status t = pendente -> due_date t = iso_date (utc_date now) ->
   Tasks.badge t now = span_hoje /\ Dashboard.badge t now = span_hoje /\
   span_hoje <> mkSpan cls_pendente "Pendente") /\
  (status t = concluida ->
   Tasks.badge t now = mkSpan cls_concluida "Concluída" /\
   className (Dashboard.badge t now) = cls_concluida).
Proof.
  intros Hy. split.
  - intros Hs Hdue. rewrite <- today_iso in Hdue by exact Hy.
    unfold Tasks.badge, Dashboard.badge, Tasks.getStatusBadge,
      Dashboard.getStatusBadge, span_hoje.
    rewrite Hs, Hdue, lt_irrefl. unfold Js.seq at 2 4.
    rewrite String.eqb_refl. repeat split. discriminate.
  - intros Hs. unfold Tasks.badge, Dashboard.badge, Tasks.getStatusBadge,
      Dashboard.getStatusBadge.
    rewrite Hs. split; reflexivity.
Qed.

Lemma due_today_and_completed_witness :
  Tasks.badge (sample_task pendente "2024-01-02") jan2_morning = span_hoje /\
  Tasks.badge (sample_task concluida "2024-01-01") jan2_morning =
    mkSpan cls_concluida "Concluída".
Proof.
  assert (Hy : Js.year jan2_morning <= 9999) by (simpl; lia).
  split.
  - apply (due_today_and_completed (sample_task pendente "2024-01-02")
             jan2_morning Hy); reflexivity.
  - apply (due_today_and_completed (sample_task concluida "2024-01-01")
             jan2_morning Hy); reflexivity.
Defined.

(** The viewer's day and the day the screens compare with part ways
    whenever the viewer's clock and UTC are on different days. *)
Lemma jan1_late_evening_days :
  viewer_local_date jan1_late_evening sao_paulo = jan1 /\
  utc_date jan1_late_evening = mkDay 2024 1 2 /\
  Js.today jan1_late_evening = "2024-01-02".
Proof. repeat split. Qed.

(** C1. The code at a failing input. A viewer in São Paulo looks at the
    lists at 22:30 on 1 January 2024. A pending task due on 1 January 2024
    is not late on the viewer's day, yet both screens mark it overdue and
    the "overdue" filter lists it: the screens take the current date from
    [toISOString], which is the UTC day (already 2 January). *)
Theorem overdue_on_the_viewers_own_day :
  let t := sample_task pendente (iso_date jan1) in
  status t = pendente /\
  due_date t = "2024-01-01" /\
  viewer_local_date jan1_late_evening sao_paulo = jan1 /\
  ~ date_lt jan1 (viewer_local_date jan1_late_evening sao_paulo) /\
  Tasks.badge t jan1_late_evening = span_atrasada /\
  Dashboard.badge t jan1_late_evening = span_atrasada /\
  Tasks.filterTasks "overdue" [t] jan1_late_evening = [t].
Proof.
  cbv zeta. repeat split; try reflexivity.
  change (viewer_local_date jan1_late_evening sao_paulo) with jan1.
  unfold date_lt, jan1. simpl. lia.
Qed.

(** C2. The code at two failing inputs. For the same viewer at the same
    instant, a pending task due on the viewer's day (1 January 2024) shows
    the overdue indicator on both screens instead of the "due today" one;
    and on the dashboard a task marked "concluida" is labelled with the
    mis-encoded text of the source file, not with "Concluída" (the list
    screen does show "Concluída"). *)
Theorem due_on_the_viewers_day_not_shown_today :
  let t := sample_task pendente (iso_date jan1) in
  let done := sample_task concluida "2024-01-01" in
  viewer_local_date jan1_late_evening sao_paulo = jan1 /\
  due_date t = iso_date (viewer_local_date jan1_late_evening sao_paulo) /\
  Tasks.badge t jan1_late_evening = span_atrasada /\
  Dashboard.badge t jan1_late_evening = span_atrasada /\
  span_atrasada <> span_hoje /\
  Tasks.badge done jan1_late_evening = mkSpan cls_concluida "Concluída" /\
  text (Dashboard.badge done jan1_late_evening) <> "Concluída".
Proof.
  cbv zeta. repeat split; try reflexivity; discriminate.
Qed.

(* ===================================================================== *)
(** ** Statements of the data-access layer *)
(* ===================================================================== *)

Section Statements.

Lemma mapM_total {A B} (g : A -> B) (l : list A) :
  mapM (fun x => Some (g x)) l = Some (List.map g l).
Proof.
  induction l as [|x l IH]; [reflexivity|].
  cbn [mapM List.map]. rewrite IH. reflexivity.
Qed.

Lemma mapM_ext_Some {A B} (f g : A -> option B) (l : list A) :
  (forall x, f x = g x) -> mapM f l = mapM g l.
Proof.
  intros E. induction l as [|x l IH]; [reflexivity|].
  cbn [mapM]. now rewrite E, IH.
Qed.

(** What an update can do to one task. *)
Lemma update_task_row_cases caller where_ p st (t t' : task) :
  Rls.update_task_row caller where_ p st t = Some t' ->
  t' = t \/
  (Rls.is_owner caller (task_user_id t) = true /\ where_ t = true /\
   t' = Rls.apply_task_patch p t /\
   Rls.is_owner caller (task_user_id t') = true).
Proof.
  unfold Rls.update_task_row.
  destruct (Rls.is_owner caller (task_user_id t)) eqn:Ho; cbn [andb];
    [|intros [= <-]; now left].
  destruct (where_ t) eqn:Hw; [|intros [= <-]; now left].
  destruct (Rls.is_owner caller (task_user_id (Rls.apply_task_patch p t)))
    eqn:Ho'; cbn [negb]; [|discriminate].
  repeat match goal with
  | |- (if negb ?b then _ else _) = _ -> _ => destruct b; cbn [negb]
  end; try discriminate.
  intros [= <-]. right. auto.
Qed.

Lemma update_tasks_spec caller where_ p (st st' : state) :
  Rls.update_tasks caller where_ p st = Some st' ->
  users st' = users st /\ profiles st' = profiles st /\
  clients st' = clients st /\
  Forall2 (fun t t' => Rls.update_task_row caller where_ p st t = Some t')
    (tasks st) (tasks st').
Proof.
  unfold Rls.update_tasks.
  destruct (mapM _ (tasks st)) as [ts|] eqn:E; [|discriminate].
  intros [= <-]. repeat split. now apply mapM_Some.
Qed.

(** An update that names neither [user_id] nor [client_id] cannot raise:
    it rewrites the caller's rows that match and leaves the others. *)
Lemma update_tasks_plain caller where_ p (st : state) :
  Rls.set_task_user_id p = None -> Rls.set_client_id p = None ->
  Rls.update_tasks caller where_ p st =
  Some (Rls.with_tasks st
          (List.map
             (fun t => if Rls.is_owner caller (task_user_id t) && where_ t
                       then Rls.apply_task_patch p t else t)
             (tasks st))).
Proof.
  intros Hu Hc. unfold Rls.update_tasks.
  rewrite (mapM_ext_Some _
             (fun t => Some (if Rls.is_owner caller (task_user_id t) && where_ t
                             then Rls.apply_task_patch p t else t))).
  - now rewrite mapM_total.
  - intros t. unfold Rls.update_task_row.
    destruct (Rls.is_owner caller (task_user_id t)) eqn:Ho; cbn [andb];
      [|reflexivity].
    destruct (where_ t); [|reflexivity].
    unfold Rls.apply_task_patch. rewrite Hu, Hc. cbn [default task_user_id client_id].
    rewrite Ho, String.eqb_refl, bool_decide_eq_true_2 by reflexivity.
    reflexivity.
Qed.

Lemma handle_new_user_spec now NEW (st st' : state) :
  handle_new_user now NEW st = Some st' ->
  Sql.has_id pr_id (id NEW) (profiles st) = false /\
  users st' = users st /\ clients st' = clients st /\ tasks st' = tasks st /\
  exists acct,
    profiles st' =
    (profiles st ++
     [mkProfile (id NEW)
        (Sql.coalesce (Sql.arrow_text (raw_user_meta_data NEW) "name") (email NEW))
        (email NEW) acct now (Some now)])%list /\
    match Sql.to_account_type
            (Sql.arrow_text (raw_user_meta_data NEW) "account_type") with
    | Sql.CastNull => acct = contador
    | Sql.CastOk a => acct = a
    | Sql.CastError => False
    end.
Proof.
  unfold handle_new_user.
  destruct (Sql.to_account_type _) as [|a|]; cbn [mbind option_bind];
    try discriminate;
    (destruct (Sql.has_id pr_id (id NEW) (profiles st)); [discriminate|]);
    (destruct (Sql.has_id id (id NEW) (users st)); cbn [negb]; [|discriminate]);
    intros [= <-]; cbn; repeat split; eauto.
Qed.

Lemma insert_auth_user_spec now u (st st' : state) :
  insert_auth_user now u st = Some st' ->
  Sql.has_id id (id u) (users st) = false /\
  Sql.has_id pr_id (id u) (profiles st) = false /\
  users st' = (users st ++ [u])%list /\ clients st' = clients st /\
  tasks st' = tasks st /\
  exists p, profiles st' = (profiles st ++ [p])%list /\ pr_id p = id u /\
            last_login p = Some now.
Proof.
  unfold insert_auth_user.
  destruct (Sql.has_id id (id u) (users st)) eqn:Hu; [discriminate|].
  intros H. apply handle_new_user_spec in H.
  destruct H as (Hp & -> & -> & -> & acct & -> & _). cbn.
  repeat split; auto. eexists. split; [reflexivity|]. split; reflexivity.
Qed.

End Statements.

(* ===================================================================== *)
(** ** The stored status *)
(* ===================================================================== *)

Section StoredStatus.

Lemma update_tasks_Forall (P : task -> Prop) caller where_ p (st st' : state) :
  (forall t, P t -> P (Rls.apply_task_patch p t)) ->
  Rls.update_tasks caller where_ p st = Some st' ->
  Forall P (tasks st) -> Forall P (tasks st').
Proof.
  intros HP Hup. apply update_tasks_spec in Hup as (_ & _ & _ & H2).
  induction H2 as [|t t' l l' Hrow _ IH]; intros Hall; [constructor|].
  inversion Hall as [|? ? Pt Pl]; subst. constructor; [|now apply IH].
  apply update_task_row_cases in Hrow as [->|(_ & _ & -> & _)]; auto.
Qed.

Lemma newStatus_cases (t : task) :
  Tasks.newStatus t =
  match status t with concluida => pendente | _ => concluida end.
Proof. unfold Tasks.newStatus. now destruct (status t). Qed.

Lemma newStatus_written (t : task) : written_status (Tasks.newStatus t).
Proof.
  rewrite newStatus_cases. unfold written_status. destruct (status t); auto.
Qed.

Lemma on_delete_set_null_status gone (t : task) :
  status (Rls.on_delete_set_null gone t) = status t.
Proof.
  unfold Rls.on_delete_set_null. destruct (client_id t) as [k|]; [|reflexivity].
  now destruct (Sql.has_id cl_id k gone).
Qed.

Lemma exec_tasks_of_other_tables (a : action) (st : state) :
  match a with
  | SignUp _ _ | SignIn _ _ | SaveClient _ _ _ _ _ | SaveProfile _ _ _ =>
      tasks (exec a st) = tasks st
  | _ => True
  end.
Proof.
  destruct a as [now u|now uid| | |user editing data fresh now| |caller pid name];
    cbn [exec]; auto.
  - unfold attempt. destruct (insert_auth_user now u st) eqn:E; [|reflexivity].
    now apply insert_auth_user_spec in E as (_ & _ & _ & _ & E & _).
  - unfold attempt, sign_in. now destruct (List.find _ (users st)).
  - unfold ClientFormPage.onSubmit, attempt.
    destruct user as [uid|]; [|reflexivity].
    destruct editing as [cid|].
    + unfold Rls.update_clients. now destruct (mapM _ (clients st)).
    + unfold Rls.insert_client.
      repeat match goal with
      | |- context [if ?b then _ else _] => destruct b
      end; reflexivity.
  - unfold ProfilePage.onProfileSubmit. now destruct pid.
Qed.

(** No action writes a status other than "pendente" and "concluida". *)
Lemma exec_written (a : action) (st : state) :
  Forall (fun t => written_status (status t)) (tasks st) ->
  Forall (fun t => written_status (status t)) (tasks (exec a st)).
Proof.
  intros Hall. pose proof (exec_tasks_of_other_tables a st) as Hsame.
  destruct a as [now u|now uid|user editing data fresh now|caller t
                |user editing data fresh now|caller deleteId|caller pid name];
    try (rewrite Hsame; exact Hall); cbn [exec].
  - unfold TaskFormPage.onSubmit, attempt.
    destruct user as [uid|]; [|exact Hall].
    destruct editing as [tid|].
    + destruct (Rls.update_tasks _ _ _ st) as [st'|] eqn:E; [|exact Hall].
      revert Hall. apply update_tasks_Forall with (2 := E).
      intros t Ht. exact Ht.
    + unfold Rls.insert_task.
      repeat match goal with
      | |- context [if ?b then _ else _] => destruct b
      end; try exact Hall.
      cbn [tasks Rls.with_tasks]. apply Forall_app. split; [exact Hall|].
      constructor; [now left | constructor].
  - unfold TasksPage.toggleTaskComplete, attempt.
    destruct (Rls.update_tasks _ _ _ st) as [st'|] eqn:E; [|exact Hall].
    revert Hall. apply update_tasks_Forall with (2 := E).
    intros r _. apply newStatus_written.
  - unfold ClientsPage.handleDelete. destruct (or_null deleteId); [|exact Hall].
    cbn [Rls.delete_clients tasks]. apply List.Forall_forall. intros t' Hin.
    apply in_map_iff in Hin as (t & <- & Hin).
    rewrite on_delete_set_null_status.
    rewrite List.Forall_forall in Hall. now apply Hall.
Qed.

Lemma run_written (history : list action) (st : state) :
  Forall (fun t => written_status (status t)) (tasks st) ->
  Forall (fun t => written_status (status t)) (tasks (run history st)).
Proof.
  revert st. induction history as [|a h IH]; intros st Hall; [exact Hall|].
  cbn [run fold_left]. apply IH. now apply exec_written.
Qed.

End StoredStatus.

(** C9. An inserted task takes the default status "pendente", the edit
    form's payload names no status, the toggle writes "pendente" or
    "concluida"; so after any history of actions of the application on an
    empty database every stored status is "pendente" or "concluida". *)
Theorem status_never_atrasada (history : list action) :
  (forall uid data fresh now,
     status (TaskFormPage.inserted_row uid data fresh now) = pendente) /\
  (forall uid data, Rls.set_status (TaskFormPage.taskData uid data) = None) /\
  (forall t, Tasks.newStatus t = pendente \/ Tasks.newStatus t = concluida) /\
  Forall (fun t => status t = pendente \/ status t = concluida)
    (tasks (run history empty_db)).
Proof.
  repeat split; try reflexivity.
  - intros t. apply newStatus_written.
  - apply (run_written history empty_db). constructor.
Qed.

(** C10. The toggle sends "concluida" to "pendente" and every other
    status to "concluida"; the statement writes that status, and nothing
    else, to the caller's row of that id. Toggling twice gives back a row
    stored as "pendente" or "concluida"; one stored as "atrasada" ends as
    "pendente". *)
Theorem toggle_twice (t : task) (caller : option uuid) (st : state) :
  Tasks.newStatus t =
    match status t with concluida => pendente | _ => concluida end /\
  tasks (TasksPage.toggleTaskComplete caller t st) =
    List.map
      (fun r =>
         if Rls.is_owner caller (task_user_id r)
            && String.eqb (task_id r) (task_id t)
         then mkTask (task_id r) (task_user_id r) (client_id r) (title r)
                (description r) (ttype r) (due_date r) (Tasks.newStatus t)
                (task_created_at r)
         else r)
      (tasks st) /\
  match status t with
  | atrasada => status (toggled (toggled t)) = pendente
  | _ => toggled (toggled t) = t
  end.
Proof.
  split; [apply newStatus_cases|]. split.
  - unfold TasksPage.toggleTaskComplete.
    rewrite update_tasks_plain by reflexivity. reflexivity.
  - unfold toggled. rewrite !newStatus_cases.
    destruct t as [i u c ti d ty due s cr]. now destruct s.
Qed.

(* ===================================================================== *)
(** ** Signup: the profile of a new identity *)
(* ===================================================================== *)

Section Signup.

Lemma has_id_app {A} (key : A -> uuid) (k : uuid) (l l' : list A) :
  Sql.has_id key k (l ++ l') = Sql.has_id key k l || Sql.has_id key k l'.
Proof. unfold Sql.has_id. apply existsb_app. Qed.

Lemma has_id_false_In {A} (key : A -> uuid) (k : uuid) (l : list A) (r : A) :
  Sql.has_id key k l = false -> In r l -> String.eqb (key r) k = false.
Proof.
  intros H Hin. destruct (String.eqb (key r) k) eqn:E; [|reflexivity].
  assert (Sql.has_id key k l = true)
    by (apply existsb_exists; exists r; auto).
  congruence.
Qed.

Lemma has_id_false_filter {A} (key : A -> uuid) (k : uuid) (l : list A) :
  Sql.has_id key k l = false ->
  List.filter (fun r => String.eqb (key r) k) l = [].
Proof.
  induction l as [|r l IH]; [reflexivity|]. cbn.
  destruct (String.eqb (key r) k); cbn; [discriminate | exact IH].
Qed.

(** The signup of a fresh identity stands or falls with the cast of the
    account category. *)
Lemma insert_auth_user_fresh (now : N) (u : auth_user) (st : state) :
  Sql.has_id id (id u) (users st) = false ->
  Sql.has_id pr_id (id u) (profiles st) = false ->
  insert_auth_user now u st =
  let p acct :=
    mkProfile (id u)
      (Sql.coalesce (Sql.arrow_text (raw_user_meta_data u) "name") (email u))
      (email u) acct now (Some now) in
  match Sql.to_account_type
          (Sql.arrow_text (raw_user_meta_data u) "account_type") with
  | Sql.CastNull => Some (signed_up u (p contador) st)
  | Sql.CastOk a => Some (signed_up u (p a) st)
  | Sql.CastError => None
  end.
Proof.
  intros Hu Hp. unfold insert_auth_user, handle_new_user. rewrite Hu.
  cbn [users profiles clients tasks].
  rewrite Hp, has_id_app. cbn [Sql.has_id existsb].
  rewrite String.eqb_refl, orb_true_r. cbn [negb orb].
  now destruct (Sql.to_account_type _).
Qed.

End Signup.

(** C3, as stated, fails: a signup whose account-category value is not one
    of the two categories creates no Profile (with the default or
    otherwise); the cast raises and the signup leaves no trace. *)
Lemma unknown_account_type_fails_signup :
  Sql.arrow_text (raw_user_meta_data carla) "account_type" = Some "admin" /\
  insert_auth_user 7 carla empty_db = None /\
  exec (SignUp 7 carla) empty_db = empty_db /\
  ~ (exists st' p, insert_auth_user 7 carla empty_db = Some st' /\
                   In p (profiles st') /\ pr_account_type p = contador).
Proof.
  assert (E : insert_auth_user 7 carla empty_db = None) by reflexivity.
  repeat split; try reflexivity.
  intros (st' & p & H & _). rewrite E in H. discriminate H.
Qed.

(** C3, amended. For the signup of a fresh identity: when the
    account-category value is absent or null the Profile is created with
    "contador"; when it is one of the two categories the Profile is created
    with it; any other value raises, so that neither the Profile nor the
    identity is created. *)
Theorem account_type_of_signup (now : N) (u : auth_user) (st : state) :
  Sql.has_id id (id u) (users st) = false ->
  Sql.has_id pr_id (id u) (profiles st) = false ->
  match Sql.arrow_text (raw_user_meta_data u) "account_type" with
  | None =>
      exists p, insert_auth_user now u st = Some (signed_up u p st) /\
                pr_id p = id u /\ pr_account_type p = contador
  | Some s =>
      if String.eqb s "contador" then
        exists p, insert_auth_user now u st = Some (signed_up u p st) /\
                  pr_id p = id u /\ pr_account_type p = contador
      else if String.eqb s "escritorio" then
        exists p, insert_auth_user now u st = Some (signed_up u p st) /\
                  pr_id p = id u /\ pr_account_type p = escritorio
      else
        insert_auth_user now u st = None /\ exec (SignUp now u) st = st
  end.
Proof.
  intros Hu Hp. cbn [exec]. rewrite (insert_auth_user_fresh now u st Hu Hp).
  unfold Sql.to_account_type.
  destruct (Sql.arrow_text (raw_user_meta_data u) "account_type") as [s|].
  - destruct (String.eqb s "contador"); [eexists; repeat split|].
    destruct (String.eqb s "escritorio"); [eexists; repeat split|].
    split; reflexivity.
  - eexists; repeat split.
Qed.

Lemma account_type_of_signup_witness :
  exists p, insert_auth_user 3 bruno empty_db = Some (signed_up bruno p empty_db) /\
            pr_id p = "u-2" /\ pr_account_type p = contador.
Proof.
  exact (account_type_of_signup 3 bruno empty_db eq_refl eq_refl).
Defined.

(** C4. The signup of a fresh identity whose account category is absent
    or recognized creates a Profile whose name is the name of the metadata,
    and the e-mail address of the signup when the metadata has no name. *)
Theorem profile_name_of_signup (now : N) (u : auth_user) (st : state) :
  Sql.has_id id (id u) (users st) = false ->
  Sql.has_id pr_id (id u) (profiles st) = false ->
  Sql.to_account_type (Sql.arrow_text (raw_user_meta_data u) "account_type")
    <> Sql.CastError ->
  exists p,
    insert_auth_user now u st = Some (signed_up u p st) /\
    pr_id p = id u /\ pr_email p = email u /\
    pr_name p =
      match Sql.arrow_text (raw_user_meta_data u) "name" with
      | Some name => name
      | None => email u
      end.
Proof.
  intros Hu Hp Hc. rewrite (insert_auth_user_fresh now u st Hu Hp).
  destruct (Sql.to_account_type _); [| |congruence];
    eexists; repeat split.
Qed.

Lemma profile_name_of_signup_witness :
  (exists p, insert_auth_user 3 ana empty_db = Some (signed_up ana p empty_db) /\
             pr_id p = "u-1" /\ pr_email p = "ana@example.com" /\
             pr_name p = "Ana Souza") /\
  (exists p, insert_auth_user 3 bruno empty_db = Some (signed_up bruno p empty_db) /\
             pr_id p = "u-2" /\ pr_email p = "bruno@example.com" /\
             pr_name p = "bruno@example.com").
Proof.
  split.
  - apply (profile_name_of_signup 3 ana empty_db eq_refl eq_refl).
    vm_compute. discriminate.
  - apply (profile_name_of_signup 3 bruno empty_db eq_refl eq_refl).
    vm_compute. discriminate.
Defined.

(* ===================================================================== *)
(** ** One profile per identity *)
(* ===================================================================== *)

Section OneProfile.

Lemma profiles_of_same (st st' : state) (uid : uuid) :
  profiles st' = profiles st -> profiles_of uid st' = profiles_of uid st.
Proof. unfold profiles_of. now intros ->. Qed.

Lemma one_profile_each_same (st st' : state) :
  users st' = users st -> profiles st' = profiles st ->
  one_profile_each st -> one_profile_each st'.
Proof.
  unfold one_profile_each. intros -> Hp H.
  eapply Forall_impl; [exact H|]. intros w Hw.
  now rewrite (profiles_of_same st st' (id w) Hp).
Qed.

(** Rewriting profiles without touching their keys keeps the count. *)
Lemma filter_map_same_key (g : profile -> profile) (uid : uuid)
    (l : list profile) :
  (forall p, pr_id (g p) = pr_id p) ->
  List.length (List.filter (fun p => String.eqb (pr_id p) uid) (List.map g l)) =
  List.length (List.filter (fun p => String.eqb (pr_id p) uid) l).
Proof.
  intros Hg. induction l as [|p l IH]; [reflexivity|].
  cbn [List.map List.filter]. rewrite Hg.
  destruct (String.eqb (pr_id p) uid); cbn [List.length]; now rewrite IH.
Qed.

Lemma one_profile_each_map (g : profile -> profile) (st st' : state) :
  (forall p, pr_id (g p) = pr_id p) ->
  users st' = users st -> profiles st' = List.map g (profiles st) ->
  one_profile_each st -> one_profile_each st'.
Proof.
  unfold one_profile_each, profiles_of. intros Hg -> -> H.
  eapply Forall_impl; [exact H|]. intros w Hw. cbn beta.
  now rewrite filter_map_same_key.
Qed.

Lemma insert_auth_user_count now u (st st' : state) :
  insert_auth_user now u st = Some st' ->
  one_profile_each st ->
  List.length (profiles_of (id u) st') = 1%nat /\ one_profile_each st'.
Proof.
  intros H Hinv.
  apply insert_auth_user_spec in H
    as (Hu & Hp & Eu & _ & _ & p & Ep & Hid & _).
  assert (Hnew : List.length (profiles_of (id u) st') = 1%nat).
  { unfold profiles_of. rewrite Ep, List.filter_app, has_id_false_filter by exact Hp.
    cbn. now rewrite Hid, String.eqb_refl. }
  split; [exact Hnew|].
  unfold one_profile_each. rewrite Eu. apply Forall_app. split.
  - rewrite List.Forall_forall. intros w Hw.
    unfold one_profile_each in Hinv. rewrite List.Forall_forall in Hinv.
    specialize (Hinv w Hw). unfold profiles_of in *.
    rewrite Ep, List.filter_app, List.length_app, Hinv. cbn.
    rewrite Hid.
    assert (E : String.eqb (id u) (id w) = false).
    { rewrite String.eqb_sym. exact (has_id_false_In id (id u) (users st) w Hu Hw). }
    now rewrite E.
  - constructor; [exact Hnew | constructor].
Qed.

Lemma exec_one_profile_each (a : action) (st : state) :
  one_profile_each st -> one_profile_each (exec a st).
Proof.
  intros Hinv.
  destruct a as [now u|now uid|user editing data fresh now|caller t
                |user editing data fresh now|caller deleteId|caller pid name];
    cbn [exec].
  - unfold attempt. destruct (insert_auth_user now u st) eqn:E; [|exact Hinv].
    now apply (insert_auth_user_count now u st).
  - unfold attempt, sign_in.
    destruct (List.find _ (users st)) as [w|]; [|exact Hinv].
    eapply one_profile_each_map with (4 := Hinv);
      [|reflexivity|reflexivity].
    intros p. cbn beta. now destruct (String.eqb (pr_id p) (id w)).
  - unfold TaskFormPage.onSubmit, attempt.
    destruct user as [uid|]; [|exact Hinv]. destruct editing as [tid|].
    + destruct (Rls.update_tasks _ _ _ st) as [st'|] eqn:E; [|exact Hinv].
      apply update_tasks_spec in E as (Eu & Ep & _).
      now apply (one_profile_each_same st st').
    + unfold Rls.insert_task.
      repeat match goal with
      | |- context [if ?b then _ else _] => destruct b
      end; exact Hinv.
  - unfold TasksPage.toggleTaskComplete, attempt.
    destruct (Rls.update_tasks _ _ _ st) as [st'|] eqn:E; [|exact Hinv].
    apply update_tasks_spec in E as (Eu & Ep & _).
    now apply (one_profile_each_same st st').
  - unfold ClientFormPage.onSubmit, attempt.
    destruct user as [uid|]; [|exact Hinv]. destruct editing as [cid|].
    + unfold Rls.update_clients.
      destruct (mapM _ (clients st)); exact Hinv.
    + unfold Rls.insert_client.
      repeat match goal with
      | |- context [if ?b then _ else _] => destruct b
      end; exact Hinv.
  - unfold ClientsPage.handleDelete. destruct (or_null deleteId); exact Hinv.
  - unfold ProfilePage.onProfileSubmit. destruct pid as [pid|]; [|exact Hinv].
    eapply one_profile_each_map with (4 := Hinv);
      [|reflexivity|reflexivity].
    intros p. cbn beta.
    now destruct (Rls.is_owner caller (pr_id p) && String.eqb (pr_id p) pid).
Qed.

Lemma run_one_profile_each (history : list action) (st : state) :
  one_profile_each st -> one_profile_each (run history st).
Proof.
  revert st. induction history as [|a h IH]; intros st Hinv; [exact Hinv|].
  cbn [run fold_left]. apply IH. now apply exec_one_profile_each.
Qed.

End OneProfile.

(** C5. The signup of a fresh identity creates the identity together with
    exactly one Profile of its id, in one step, whenever the Profile
    insertion goes through (account category absent or recognized); when
    the Profile insertion raises, the signup itself fails and leaves
    neither identity nor Profile. Signup keeps "each identity has exactly
    one Profile" true, so after any history on an empty database each
    identity has exactly one Profile. *)
Theorem one_profile_per_identity (history : list action) (now : N)
    (u : auth_user) (st : state) :
  Sql.has_id id (id u) (users st) = false ->
  Sql.has_id pr_id (id u) (profiles st) = false ->
  one_profile_each st ->
  match Sql.to_account_type
          (Sql.arrow_text (raw_user_meta_data u) "account_type") with
  | Sql.CastError =>
      handle_new_user now u
        (mkState (users st ++ [u]) (profiles st) (clients st) (tasks st))
        = None /\
      insert_auth_user now u st = None /\
      exec (SignUp now u) st = st
  | _ =>
      exists p,
        handle_new_user now u
          (mkState (users st ++ [u]) (profiles st) (clients st) (tasks st))
          = Some (signed_up u p st) /\
        insert_auth_user now u st = Some (signed_up u p st) /\
        exec (SignUp now u) st = signed_up u p st /\
        pr_id p = id u /\
        In u (users (signed_up u p st)) /\
        profiles_of (id u) (signed_up u p st) = [p]
  end /\
  one_profile_each (exec (SignUp now u) st) /\
  Forall (fun w => List.length (profiles_of (id w) (run history empty_db)) = 1%nat)
    (users (run history empty_db)).
Proof.
  intros Hu Hp Hinv.
  pose proof (insert_auth_user_fresh now u st Hu Hp) as Efresh. cbv zeta in Efresh.
  assert (Ehandle :
            handle_new_user now u
              (mkState (users st ++ [u]) (profiles st) (clients st) (tasks st))
            = insert_auth_user now u st).
  { unfold insert_auth_user. now rewrite Hu. }
  assert (Hcount : forall p, pr_id p = id u ->
                     profiles_of (id u) (signed_up u p st) = [p]).
  { intros p Hid. unfold profiles_of, signed_up. cbn [profiles].
    rewrite List.filter_app, has_id_false_filter by exact Hp.
    cbn. now rewrite Hid, String.eqb_refl. }
  split; [|split].
  - rewrite Ehandle. cbn [exec]. rewrite Efresh.
    destruct (Sql.to_account_type _).
    + eexists. repeat split; [apply in_or_app; right; now left|].
      now apply Hcount.
    + eexists. repeat split; [apply in_or_app; right; now left|].
      now apply Hcount.
    + repeat split.
  - now apply exec_one_profile_each.
  - apply (run_one_profile_each history empty_db). constructor.
Qed.

Lemma one_profile_per_identity_witness :
  (exists p,
     insert_auth_user 3 bruno empty_db = Some (signed_up bruno p empty_db) /\
     exec (SignUp 3 bruno) empty_db = signed_up bruno p empty_db /\
     profiles_of "u-2" (signed_up bruno p empty_db) = [p]) /\
  insert_auth_user 3 carla empty_db = None /\
  exec (SignUp 3 carla) empty_db = empty_db.
Proof.
  assert (Hinv : one_profile_each empty_db) by constructor.
  destruct (one_profile_per_identity [] 3 bruno empty_db eq_refl eq_refl Hinv)
    as ((p & _ & Hins & Hexec & _ & _ & Hone) & _).
  destruct (one_profile_per_identity [] 3 carla empty_db eq_refl eq_refl Hinv)
    as ((_ & Hnone & Hsame) & _).
  split; [exists p; repeat split; assumption|].
  split; assumption.
Defined.

(** Two signups, one of them refused, and a sign-in: two identities, one
    profile each. *)
Example two_identities_two_profiles :
  let st := run [SignUp 1 ana; SignUp 2 carla; SignUp 3 bruno; SignIn 4 "u-1"]
              empty_db in
  List.map id (users st) = ["u-1"; "u-2"] /\
  List.map pr_id (profiles st) = ["u-1"; "u-2"] /\
  List.map last_login (profiles st) = [Some 4; Some 3].
Proof. vm_compute. repeat split. Qed.

(* ===================================================================== *)
(** ** Last login *)
(* ===================================================================== *)

Section LastLogin.

Lemma find_has_id {A} (key : A -> uuid) (k : uuid) (l : list A) :
  Sql.has_id key k l = true ->
  exists r, List.find (fun r => String.eqb (key r) k) l = Some r /\ key r = k.
Proof.
  induction l as [|x l IH]; cbn; [discriminate|].
  destruct (String.eqb (key x) k) eqn:E.
  - intros _. exists x. split; [reflexivity | now apply String.eqb_eq].
  - cbn. exact IH.
Qed.

Lemma has_id_map_same_key {A} (key : A -> uuid) (g : A -> A) (k : uuid)
    (l : list A) :
  (forall r, key (g r) = key r) ->
  Sql.has_id key k (List.map g l) = Sql.has_id key k l.
Proof.
  intros Hg. induction l as [|x l IH]; [reflexivity|].
  cbn. rewrite Hg. f_equal. exact IH.
Qed.

Lemma find_map_same_key (g : profile -> profile) (k : uuid) (l : list profile) :
  (forall p, pr_id (g p) = pr_id p) ->
  List.find (fun p => String.eqb (pr_id p) k) (List.map g l) =
  option_map g (List.find (fun p => String.eqb (pr_id p) k) l).
Proof.
  intros Hg. induction l as [|x l IH]; [reflexivity|].
  cbn. rewrite Hg. destruct (String.eqb (pr_id x) k); [reflexivity | exact IH].
Qed.

Lemma stamp_id now uid p : pr_id (stamp now uid p) = pr_id p.
Proof. unfold stamp. now destruct (String.eqb (pr_id p) uid). Qed.

(** A sign-in of an identity that has a profile succeeds, stamps the
    profile and keeps both facts true. *)
Lemma sign_in_stamps (now : N) (uid : uuid) (st : state) :
  Sql.has_id id uid (users st) = true ->
  Sql.has_id pr_id uid (profiles st) = true ->
  exists st',
    sign_in now uid st = Some st' /\
    users st' = users st /\ clients st' = clients st /\ tasks st' = tasks st /\
    profiles st' = List.map (stamp now uid) (profiles st) /\
    last_login_of uid st' = Some now /\
    Sql.has_id id uid (users st') = true /\
    Sql.has_id pr_id uid (profiles st') = true.
Proof.
  intros Hu Hp. unfold sign_in.
  destruct (find_has_id id uid (users st) Hu) as (u & -> & Hid).
  eexists. split; [reflexivity|]. unfold update_last_login.
  cbn [users profiles clients tasks]. rewrite Hid.
  fold (stamp now uid). repeat split; auto.
  - unfold last_login_of. cbn [profiles].
    rewrite find_map_same_key by apply stamp_id.
    destruct (find_has_id pr_id uid (profiles st) Hp) as (p & -> & Hpid).
    cbn. unfold stamp. rewrite Hpid, String.eqb_refl. reflexivity.
  - rewrite has_id_map_same_key by apply stamp_id. exact Hp.
Qed.

Lemma login_trace_times (uid : uuid) (times : list N) (st : state) :
  Sql.has_id id uid (users st) = true ->
  Sql.has_id pr_id uid (profiles st) = true ->
  login_trace uid times st = List.map Some times.
Proof.
  revert st. induction times as [|now rest IH]; intros st Hu Hp; [reflexivity|].
  cbn [login_trace List.map].
  destruct (sign_in_stamps now uid st Hu Hp)
    as (st' & -> & _ & _ & _ & _ & Hl & Hu' & Hp').
  cbn [attempt]. rewrite Hl. f_equal. now apply IH.
Qed.

Lemma sign_ins_keep (uid : uuid) (times : list N) (st : state) :
  Sql.has_id id uid (users st) = true ->
  Sql.has_id pr_id uid (profiles st) = true ->
  Sql.has_id id uid (users (sign_ins uid times st)) = true /\
  Sql.has_id pr_id uid (profiles (sign_ins uid times st)) = true.
Proof.
  revert st. induction times as [|now rest IH]; intros st Hu Hp; [now split|].
  unfold sign_ins. cbn [List.map run fold_left exec].
  destruct (sign_in_stamps now uid st Hu Hp)
    as (st' & -> & _ & _ & _ & _ & _ & Hu' & Hp').
  cbn [attempt]. now apply IH.
Qed.

Lemma sign_ins_snoc (uid : uuid) (times : list N) (now : N) (st : state) :
  sign_ins uid (times ++ [now]) st =
  attempt (sign_in now uid (sign_ins uid times st)) (sign_ins uid times st).
Proof.
  unfold sign_ins, run. rewrite List.map_app, fold_left_app. reflexivity.
Qed.

End LastLogin.

(** C6. For an identity that has a profile, every sign-in succeeds and
    sets the profile's [last_login] to the time of the sign-in, whatever it
    held, leaving the profiles of other identities as they were. After a
    series of sign-ins the values read after each of them are the times of
    the sign-ins, the last one read is the time of the most recent
    sign-in, and the values never go back when the times do not. *)
Theorem last_login_tracks_sign_in (uid : uuid) (times : list N) (now : N)
    (st : state) :
  Sql.has_id id uid (users st) = true ->
  Sql.has_id pr_id uid (profiles st) = true ->
  (exists st',
     sign_in now uid st = Some st' /\
     last_login_of uid st' = Some now /\
     List.filter (fun p => negb (String.eqb (pr_id p) uid)) (profiles st') =
     List.filter (fun p => negb (String.eqb (pr_id p) uid)) (profiles st)) /\
  login_trace uid times st = List.map Some times /\
  last_login_of uid (sign_ins uid (times ++ [now]) st) = Some now /\
  (non_decreasing times ->
   forall (i j : nat) (a b : N),
     (i <= j)%nat ->
     login_trace uid times st !! i = Some (Some a) ->
     login_trace uid times st !! j = Some (Some b) -> a <= b).
Proof.
  intros Hu Hp. split; [|split; [|split]].
  - destruct (sign_in_stamps now uid st Hu Hp)
      as (st' & E & _ & _ & _ & Eprof & Hl & _).
    exists st'. split; [exact E|]. split; [exact Hl|].
    rewrite Eprof. clear. induction (profiles st) as [|p l IH]; [reflexivity|].
    cbn [List.map List.filter]. rewrite stamp_id.
    destruct (String.eqb (pr_id p) uid) eqn:E; cbn [negb]; [exact IH|].
    unfold stamp at 1. rewrite E. now rewrite IH.
  - now apply login_trace_times.
  - rewrite sign_ins_snoc.
    destruct (sign_ins_keep uid times st Hu Hp) as [Hu' Hp'].
    destruct (sign_in_stamps now uid _ Hu' Hp') as (st' & -> & _ & _ & _ & _ & Hl & _).
    exact Hl.
  - intros Hmono i j a b Hij. rewrite login_trace_times by assumption.
    change (List.map Some times) with (Some <$> times).
    rewrite !list_lookup_fmap. intros Ha Hb.
    destruct (times !! i) as [a'|] eqn:Ea; [|discriminate].
    destruct (times !! j) as [b'|] eqn:Eb; [|discriminate].
    cbn in Ha, Hb. injection Ha as <-. injection Hb as <-.
    exact (Hmono i j a' b' Hij Ea Eb).
Qed.

Lemma last_login_tracks_sign_in_witness :
  let st := run [SignUp 1 ana; SignUp 2 bruno] empty_db in
  login_trace "u-1" [5; 8; 8] st = [Some 5; Some 8; Some 8] /\
  last_login_of "u-1" (sign_ins "u-1" ([5; 8; 8] ++ [13]) st) = Some 13 /\
  (forall a b, login_trace "u-1" [5; 8; 8] st !! 0%nat = Some (Some a) ->
               login_trace "u-1" [5; 8; 8] st !! 2%nat = Some (Some b) -> a <= b).
Proof.
  cbv zeta.
  destruct (last_login_tracks_sign_in "u-1" [5; 8; 8] 13
              (run [SignUp 1 ana; SignUp 2 bruno] empty_db) eq_refl eq_refl)
    as (_ & Htrace & Hlast & Hmono).
  split; [exact Htrace|]. split; [exact Hlast|].
  intros a b. apply Hmono; [|lia].
  intros i j x y Hij Hx Hy.
  destruct i as [|[|[|i]]]; destruct j as [|[|[|j]]]; cbn in Hx, Hy;
    try discriminate; try lia;
    injection Hx as <-; injection Hy as <-; lia.
Defined.

(* ===================================================================== *)
(** ** Deleting a client *)
(* ===================================================================== *)

Section ClientDeletion.

Lemma on_delete_set_null_same gone (t : task) :
  same_but_client t (Rls.on_delete_set_null gone t).
Proof.
  unfold Rls.on_delete_set_null, same_but_client.
  destruct (client_id t) as [k|]; [|repeat split].
  destruct (Sql.has_id cl_id k gone); repeat split.
Qed.

Lemma on_delete_set_null_client gone (t : task) :
  client_id (Rls.on_delete_set_null gone t) =
  match client_id t with
  | Some k => if Sql.has_id cl_id k gone then None else Some k
  | None => None
  end.
Proof.
  unfold Rls.on_delete_set_null.
  destruct (client_id t) as [k|] eqn:E; [|exact E].
  destruct (Sql.has_id cl_id k gone); [reflexivity | exact E].
Qed.

(** The rows that leave [public.clients] are the ones the statement hits. *)
Lemma delete_clients_removed caller where_ (st : state) (k : uuid) :
  Sql.has_id cl_id k
    (List.filter (fun c => Rls.is_owner caller (cl_user_id c) && where_ c)
       (clients st)) = true <->
  removed_client st (Rls.delete_clients caller where_ st) k.
Proof.
  unfold removed_client, Sql.has_id. rewrite existsb_exists.
  cbn [Rls.delete_clients clients]. split.
  - intros (c & Hin & Hk). apply filter_In in Hin as [Hin Hhit].
    exists c. split; [exact Hin|]. split; [|now apply String.eqb_eq].
    rewrite filter_In, Hhit. intros [_ H]. discriminate H.
  - intros (c & Hin & Hout & Hk). exists c.
    rewrite filter_In. rewrite filter_In in Hout.
    destruct (Rls.is_owner caller (cl_user_id c) && where_ c) eqn:Hhit.
    + split; [now split | now apply String.eqb_eq].
    + exfalso. apply Hout. now split.
Qed.

End ClientDeletion.

(** C7. Deleting a client from the clients screen deletes no task: the
    task table keeps its length, and each task keeps its place and every
    column but [client_id], which becomes null exactly when it pointed at a
    client that the deletion removed and is unchanged otherwise. *)
Theorem client_delete_keeps_tasks (caller : option uuid)
    (deleteId : option string) (st : state) (i : nat) (t : task) :
  tasks st !! i = Some t ->
  List.length (tasks (ClientsPage.handleDelete caller deleteId st)) =
    List.length (tasks st) /\
  exists t',
    tasks (ClientsPage.handleDelete caller deleteId st) !! i = Some t' /\
    same_but_client t t' /\
    match client_id t with
    | None => client_id t' = None
    | Some k =>
        (removed_client st (ClientsPage.handleDelete caller deleteId st) k ->
         client_id t' = None) /\
        (~ removed_client st (ClientsPage.handleDelete caller deleteId st) k ->
         client_id t' = Some k)
    end.
Proof.
  intros Hi. unfold ClientsPage.handleDelete.
  destruct (or_null deleteId) as [cid|].
  - split; [cbn [Rls.delete_clients tasks]; apply List.length_map|].
    set (where_ := fun c : client => String.eqb (cl_id c) cid).
    set (gone := List.filter
                   (fun c => Rls.is_owner caller (cl_user_id c) && where_ c)
                   (clients st)).
    exists (Rls.on_delete_set_null gone t). split.
    + cbn [Rls.delete_clients tasks].
      change (List.map ?f ?l) with (f <$> l).
      now rewrite list_lookup_fmap, Hi.
    + split; [apply on_delete_set_null_same|].
      rewrite on_delete_set_null_client.
      destruct (client_id t) as [k|]; [|reflexivity].
      pose proof (delete_clients_removed caller where_ st k) as Hrem.
      fold gone in Hrem.
      destruct (Sql.has_id cl_id k gone).
      * split; [reflexivity|]. intros Hn. exfalso. apply Hn. now apply Hrem.
      * split; [|reflexivity]. intros Hr. apply Hrem in Hr. discriminate Hr.
  - split; [reflexivity|]. exists t. split; [exact Hi|].
    split; [repeat split|].
    destruct (client_id t) as [k|]; [|reflexivity].
    split; [|reflexivity].
    intros (c & Hin & Hout & _). now exfalso.
Qed.

Lemma client_delete_keeps_tasks_witness :
  exists t',
    tasks (ClientsPage.handleDelete (Some "u-2") (Some "c-1") office) !! 0%nat
      = Some t' /\
    task_id t' = "t-2" /\ title t' = "IRPF 2024" /\ status t' = pendente /\
    client_id t' = None.
Proof.
  destruct (client_delete_keeps_tasks (Some "u-2") (Some "c-1") office 0
              (mkTask "t-2" "u-2" (Some "c-1") "IRPF 2024" None imposto
                 "2024-01-01" pendente 4) eq_refl)
    as (_ & t' & Hi & Hsame & Hrem & _).
  exists t'. split; [exact Hi|].
  destruct Hsame as (Hid & _ & Htitle & _ & _ & _ & Hstatus & _).
  split; [exact Hid|]. split; [exact Htitle|]. split; [exact Hstatus|].
  apply Hrem.
  exists (mkClient "c-1" "u-2" "Padaria Sol" "12345678000190" PJ None None 3).
  split; [left; reflexivity|]. split; [|reflexivity].
  vm_compute. intros [].
Defined.

(* ===================================================================== *)
(** ** Row ownership *)
(* ===================================================================== *)

Section Ownership.

Variable U : uuid.
Variable caller : option uuid.
Hypothesis other : caller <> Some U.

(** A row the caller owns is not a row of [U]. *)
Lemma is_owner_other (o : uuid) :
  Rls.is_owner caller o = true -> String.eqb o U = false.
Proof using other.
  unfold Rls.is_owner. destruct caller as [v|]; [|discriminate].
  intros E. apply String.eqb_eq in E. subst v.
  apply String.eqb_neq. intros ->. now apply other.
Qed.

Lemma not_owner_of_U (o : uuid) :
  String.eqb o U = true -> Rls.is_owner caller o = false.
Proof using other.
  intros E. destruct (Rls.is_owner caller o) eqn:Ho; [|reflexivity].
  apply is_owner_other in Ho. congruence.
Qed.

Lemma select_tasks_other where_ (st : state) :
  Forall (fun t => String.eqb (task_user_id t) U = false)
    (Rls.select_tasks caller where_ st).
Proof using other.
  apply List.Forall_forall. intros t Hin. unfold Rls.select_tasks in Hin.
  apply filter_In in Hin as [_ H]. apply andb_true_iff in H as [H _].
  now apply is_owner_other.
Qed.

Lemma select_clients_other where_ (st : state) :
  Forall (fun c => String.eqb (cl_user_id c) U = false)
    (Rls.select_clients caller where_ st).
Proof using other.
  apply List.Forall_forall. intros c Hin. unfold Rls.select_clients in Hin.
  apply filter_In in Hin as [_ H]. apply andb_true_iff in H as [H _].
  now apply is_owner_other.
Qed.

Lemma insert_task_other (row : task) (st : state) :
  match Rls.insert_task caller row st with
  | Some st' =>
      String.eqb (task_user_id row) U = false /\
      tasks_of U st' = tasks_of U st /\ clients st' = clients st
  | None => True
  end.
Proof using other.
  unfold Rls.insert_task.
  destruct (Rls.is_owner caller (task_user_id row)) eqn:Ho; cbn [negb]; [|exact I].
  apply is_owner_other in Ho.
  repeat match goal with
  | |- context [if ?b then _ else _] => destruct b
  end; try exact I.
  split; [exact Ho|]. split; [|reflexivity].
  unfold tasks_of. cbn [tasks Rls.with_tasks].
  rewrite List.filter_app. cbn [List.filter]. rewrite Ho. apply app_nil_r.
Qed.

Lemma insert_client_other (row : client) (st : state) :
  match Rls.insert_client caller row st with
  | Some st' =>
      String.eqb (cl_user_id row) U = false /\
      clients_of U st' = clients_of U st /\ tasks st' = tasks st
  | None => True
  end.
Proof using other.
  unfold Rls.insert_client.
  destruct (Rls.is_owner caller (cl_user_id row)) eqn:Ho; cbn [negb]; [|exact I].
  apply is_owner_other in Ho.
  repeat match goal with
  | |- context [if ?b then _ else _] => destruct b
  end; try exact I.
  split; [exact Ho|]. split; [|reflexivity].
  unfold clients_of. cbn [clients Rls.with_clients].
  rewrite List.filter_app. cbn [List.filter]. rewrite Ho. apply app_nil_r.
Qed.

Lemma update_tasks_other where_ p (st : state) :
  match Rls.update_tasks caller where_ p st with
  | Some st' => tasks_of U st' = tasks_of U st /\ clients st' = clients st
  | None => True
  end.
Proof using other.
  destruct (Rls.update_tasks caller where_ p st) as [st'|] eqn:E; [|exact I].
  apply update_tasks_spec in E as (_ & _ & Ec & H2). split; [|exact Ec].
  unfold tasks_of. induction H2 as [|t t' l l' Hrow _ IH]; [reflexivity|].
  cbn [List.filter]. rewrite IH.
  apply update_task_row_cases in Hrow as [->|(Ho & _ & _ & Ho')]; [reflexivity|].
  apply is_owner_other in Ho, Ho'. now rewrite Ho, Ho'.
Qed.

Lemma update_clients_other where_ p (st : state) :
  match Rls.update_clients caller where_ p st with
  | Some st' => clients_of U st' = clients_of U st /\ tasks st' = tasks st
  | None => True
  end.
Proof using other.
  unfold Rls.update_clients.
  destruct (mapM _ (clients st)) as [cs|] eqn:E; cbn [mbind option_bind]; [|exact I].
  split; [|reflexivity]. apply mapM_Some in E.
  unfold clients_of. cbn [clients Rls.with_clients].
  induction E as [|c c' l l' Hrow _ IH]; [reflexivity|].
  cbn [List.filter]. rewrite IH. clear IH.
  unfold Rls.update_client_row in Hrow.
  destruct (Rls.is_owner caller (cl_user_id c)) eqn:Ho; cbn [andb] in Hrow;
    [|now injection Hrow as <-].
  destruct (where_ c); [|now injection Hrow as <-].
  destruct (Rls.is_owner caller (cl_user_id (Rls.apply_client_patch p c)))
    eqn:Ho'; cbn [negb] in Hrow; [|discriminate].
  destruct (negb _) in Hrow; [discriminate|]. injection Hrow as <-.
  apply is_owner_other in Ho, Ho'. now rewrite Ho, Ho'.
Qed.

Lemma filter_keeps_rows_of_U {A} (owner : A -> uuid) (where_ : A -> bool)
    (l : list A) :
  List.filter (fun r => String.eqb (owner r) U)
    (List.filter (fun r => negb (Rls.is_owner caller (owner r) && where_ r)) l) =
  List.filter (fun r => String.eqb (owner r) U) l.
Proof using other.
  induction l as [|r l IH]; [reflexivity|]. cbn [List.filter].
  destruct (String.eqb (owner r) U) eqn:E.
  - rewrite (not_owner_of_U _ E). cbn [andb negb List.filter].
    now rewrite E, IH.
  - destruct (negb _); cbn [List.filter]; now rewrite ?E, IH.
Qed.

Lemma delete_tasks_other where_ (st : state) :
  tasks_of U (Rls.delete_tasks caller where_ st) = tasks_of U st /\
  clients (Rls.delete_tasks caller where_ st) = clients st.
Proof using other.
  split; [|reflexivity]. unfold tasks_of. cbn [Rls.delete_tasks Rls.with_tasks tasks].
  apply (filter_keeps_rows_of_U task_user_id).
Qed.

(** Deleting clients: the rows removed are the caller's, the clients of
    [U] stay, and the tasks of [U] are touched by the foreign key only. *)
Lemma delete_clients_other where_ (st : state) :
  let gone :=
    List.filter (fun c => Rls.is_owner caller (cl_user_id c) && where_ c)
      (clients st) in
  Forall (fun c => String.eqb (cl_user_id c) U = false) gone /\
  clients_of U (Rls.delete_clients caller where_ st) = clients_of U st /\
  tasks_of U (Rls.delete_clients caller where_ st) =
    List.map (Rls.on_delete_set_null gone) (tasks_of U st).
Proof using other.
  cbv zeta. split; [|split].
  - apply List.Forall_forall. intros c Hin.
    apply filter_In in Hin as [_ H]. apply andb_true_iff in H as [H _].
    now apply is_owner_other.
  - unfold clients_of. cbn [Rls.delete_clients clients].
    apply (filter_keeps_rows_of_U cl_user_id).
  - unfold tasks_of. cbn [Rls.delete_clients tasks].
    induction (tasks st) as [|t l IH]; [reflexivity|].
    cbn [List.map List.filter].
    destruct (on_delete_set_null_same
                (List.filter
                   (fun c => Rls.is_owner caller (cl_user_id c) && where_ c)
                   (clients st)) t) as (_ & -> & _).
    destruct (String.eqb (task_user_id t) U); cbn [List.map]; now rewrite IH.
Qed.

End Ownership.

Lemma filter_andb {A} (f g : A -> bool) (l : list A) :
  List.filter (fun x => f x && g x) l = List.filter g (List.filter f l).
Proof.
  induction l as [|x l IH]; [reflexivity|]. cbn [List.filter].
  destruct (f x); cbn [andb List.filter]; [|exact IH].
  destruct (g x); now rewrite IH.
Qed.

(** A query returns rows of the caller only, and is a function of them. *)
Lemma select_own (V : uuid) (st : state) :
  (forall where_,
     Rls.select_tasks (Some V) where_ st = List.filter where_ (tasks_of V st)) /\
  (forall where_,
     Rls.select_clients (Some V) where_ st =
     List.filter where_ (clients_of V st)).
Proof.
  split; intros where_.
  - unfold Rls.select_tasks, tasks_of. rewrite filter_andb. f_equal.
    apply List.filter_ext. intros t. cbn. apply String.eqb_sym.
  - unfold Rls.select_clients, clients_of. rewrite filter_andb. f_equal.
    apply List.filter_ext. intros c. cbn. apply String.eqb_sym.
Qed.

(** C8, as stated, fails: Bruno deletes his own client, and the task that
    Ana owns and that pointed at it is modified (its [client_id] is
    cleared by the foreign key, which the policies do not govern). *)
Lemma delete_reaches_other_owner :
  let ana_task c :=
    mkTask "t-1" "u-1" c "IRPF 2024" None imposto "2024-01-01" pendente 5 in
  let after := ClientsPage.handleDelete (Some "u-2") (Some "c-1") office_shared in
  List.map cl_user_id (clients office_shared) = ["u-2"] /\
  tasks_of "u-1" office_shared = [ana_task (Some "c-1")] /\
  tasks_of "u-1" after = [ana_task None] /\
  tasks_of "u-1" after <> tasks_of "u-1" office_shared.
Proof.
  cbv zeta.
  assert (E1 : tasks_of "u-1" office_shared =
               [mkTask "t-1" "u-1" (Some "c-1") "IRPF 2024" None imposto
                  "2024-01-01" pendente 5]) by (vm_compute; reflexivity).
  assert (E2 : tasks_of "u-1"
                 (ClientsPage.handleDelete (Some "u-2") (Some "c-1") office_shared) =
               [mkTask "t-1" "u-1" None "IRPF 2024" None imposto
                  "2024-01-01" pendente 5]) by (vm_compute; reflexivity).
  split; [vm_compute; reflexivity|]. split; [exact E1|]. split; [exact E2|].
  rewrite E1, E2. discriminate.
Qed.

(** C8, amended. For a user [U] and a caller who is not [U]: the caller's
    queries return no row of [U] and depend on the caller's own rows only;
    the caller cannot insert a Client or Task owned by [U]; the caller's
    inserts, updates and task deletions leave the Clients and the Tasks of
    [U] as they were; the caller's client deletions remove only the
    caller's own Clients, keep the Clients of [U], delete no Task of [U],
    and change in a Task of [U] nothing but a [client_id] that pointed at
    one of the deleted Clients, which is cleared. *)
Theorem ownership_isolation (U : uuid) (caller : option uuid) (st : state) :
  caller <> Some U ->
  (forall where_,
     Forall (fun t => String.eqb (task_user_id t) U = false)
       (Rls.select_tasks caller where_ st)) /\
  (forall where_,
     Forall (fun c => String.eqb (cl_user_id c) U = false)
       (Rls.select_clients caller where_ st)) /\
  (forall V where_,
     Rls.select_tasks (Some V) where_ st = List.filter where_ (tasks_of V st)) /\
  (forall V where_,
     Rls.select_clients (Some V) where_ st =
     List.filter where_ (clients_of V st)) /\
  (forall row,
     match Rls.insert_task caller row st with
     | Some st' =>
         String.eqb (task_user_id row) U = false /\
         tasks_of U st' = tasks_of U st /\ clients st' = clients st
     | None => True
     end) /\
  (forall row,
     match Rls.insert_client caller row st with
     | Some st' =>
         String.eqb (cl_user_id row) U = false /\
         clients_of U st' = clients_of U st /\ tasks st' = tasks st
     | None => True
     end) /\
  (forall where_ p,
     match Rls.update_tasks caller where_ p st with
     | Some st' => tasks_of U st' = tasks_of U st /\ clients st' = clients st
     | None => True
     end) /\
  (forall where_ p,
     match Rls.update_clients caller where_ p st with
     | Some st' => clients_of U st' = clients_of U st /\ tasks st' = tasks st
     | None => True
     end) /\
  (forall where_,
     tasks_of U (Rls.delete_tasks caller where_ st) = tasks_of U st /\
     clients (Rls.delete_tasks caller where_ st) = clients st) /\
  (forall where_,
     let gone :=
       List.filter (fun c => Rls.is_owner caller (cl_user_id c) && where_ c)
         (clients st) in
     Forall (fun c => String.eqb (cl_user_id c) U = false) gone /\
     clients_of U (Rls.delete_clients caller where_ st) = clients_of U st /\
     tasks_of U (Rls.delete_clients caller where_ st) =
       List.map (Rls.on_delete_set_null gone) (tasks_of U st)).
Proof.
  intros Hother.
  split; [intros w; now apply select_tasks_other|].
  split; [intros w; now apply select_clients_other|].
  split; [intros V w; apply select_own|].
  split; [intros V w; apply select_own|].
  split; [intros row; now apply insert_task_other|].
  split; [intros row; now apply insert_client_other|].
  split; [intros w p; now apply update_tasks_other|].
  split; [intros w p; now apply update_clients_other|].
  split; [intros w; now apply delete_tasks_other|].
  intros w. now apply delete_clients_other.
Qed.

Lemma ownership_isolation_witness :
  Rls.select_tasks (Some "u-1") (fun _ => true) office = [] /\
  Rls.insert_client (Some "u-1")
    (mkClient "c-9" "u-2" "Mercado Lua" "98765432000110" PJ None None 6) office
    = None /\
  tasks_of "u-2"
    (Rls.delete_tasks (Some "u-1") (fun t => String.eqb (task_id t) "t-2") office)
  = tasks_of "u-2" office /\
  clients_of "u-2"
    (Rls.delete_clients (Some "u-1") (fun c => String.eqb (cl_id c) "c-1") office)
  = clients_of "u-2" office.
Proof.
  assert (Hother : Some "u-1" <> Some "u-2") by discriminate.
  destruct (ownership_isolation "u-2" (Some "u-1") office Hother)
    as (_ & _ & Hsel & _ & _ & Hins & _ & _ & Hdel & Hdelc).
  split; [rewrite Hsel; reflexivity|].
  split.
  - specialize (Hins (mkClient "c-9" "u-2" "Mercado Lua" "98765432000110" PJ
                        None None 6)).
    destruct (Rls.insert_client _ _ office); [|reflexivity].
    destruct Hins as [H _]. discriminate H.
  - split; [apply Hdel | apply Hdelc].
Defined.

(* ===================================================================== *)
(** ** More on the indicators and the filters *)
(* ===================================================================== *)

Section Indicators.

(** [today] read off the calendar fields, for every year. *)
Lemma today_text (now : Js.Date) :
  Js.today now =
  Js.year_text (Js.year now) ++ "-" ++ Js.pad2 (Js.month now) ++ "-"
  ++ Js.pad2 (Js.day now).
Proof.
  unfold Js.today, Js.toISOString, Js.year_text.
  destruct (Js.year now <=? 9999);
    unfold Js.pad6, Js.pad4, Js.pad3, Js.pad2;
    rewrite !app_cons, !app_empty;
    repeat (rewrite split_head_cons by (apply digit_not_T || reflexivity));
    rewrite split_head_hit; reflexivity.
Qed.

Lemma date_lt_asym (a b : date) : date_lt a b -> ~ date_lt b a.
Proof. unfold date_lt. lia. Qed.

Lemma date_trichotomy (a b : date) : date_lt a b \/ a = b \/ date_lt b a.
Proof.
  destruct a as [y m d], b as [y' m' d']. unfold date_lt. cbn.
  destruct (N.lt_trichotomy y y') as [?|[->|?]]; [lia| |lia].
  destruct (N.lt_trichotomy m m') as [?|[->|?]]; [lia| |lia].
  destruct (N.lt_trichotomy d d') as [?|[->|?]]; [lia| |lia].
  right. now left.
Qed.

(** The three readings of the two text tests, for well-formed dates. *)
Lemma text_tests (a b : date) :
  iso_ok a -> iso_ok b ->
  (Js.lt (iso_date a) (iso_date b) = false /\
   Js.seq (iso_date a) (iso_date b) = false) <-> date_lt b a.
Proof.
  intros Ha Hb. pose proof (lt_iso_date a b Ha Hb) as Hab.
  pose proof (lt_iso_date b a Hb Ha) as Hba. unfold Js.seq. split.
  - intros [Hlt Hne]. destruct (date_trichotomy a b) as [H|[H|H]].
    + apply Hab in H. congruence.
    + subst b. rewrite String.eqb_refl in Hne. discriminate.
    + exact H.
  - intros H. split.
    + destruct (Js.lt (iso_date a) (iso_date b)) eqn:E; [|reflexivity].
      exfalso. apply (date_lt_asym b a H). now apply Hab.
    + apply String.eqb_neq. intros E. apply iso_date_inj in E; try assumption.
      subst b. exact (date_lt_asym a a H H).
Qed.

End Indicators.

(** X1. A task with a well-formed due date shows the generic pending
    indicator exactly when it is not completed and is due strictly after
    the calendar day of the instant, on both screens. *)
Theorem pending_badge_iff_later (t : task) (now : Js.Date) (due : date) :
  due_date t = iso_date due -> iso_ok due -> iso_ok (utc_date now) ->
  (Tasks.badge t now = span_pendente <->
   status t <> concluida /\ date_lt (utc_date now) due) /\
  (Dashboard.badge t now = span_pendente <->
   status t <> concluida /\ date_lt (utc_date now) due).
Proof.
  intros Hdue Hok Hnow.
  pose proof (text_tests due (utc_date now) Hok Hnow) as Htests.
  rewrite <- today_iso, <- Hdue in Htests by apply Hnow.
  unfold Tasks.badge, Dashboard.badge, Tasks.getStatusBadge,
    Dashboard.getStatusBadge, span_pendente.
  rewrite <- Htests.
  destruct (status t); cbn [status_text];
    match goal with
    | |- context [Js.seq ?a "concluida"] =>
        let b := eval vm_compute in (Js.seq a "concluida") in
        change (Js.seq a "concluida") with b
    end; cbv iota;
    destruct (Js.lt (due_date t) (Js.today now));
    destruct (Js.seq (due_date t) (Js.today now));
    (split; (split;
     [ intros E; first [ discriminate E | repeat split; discriminate ]
     | intros (E1 & E2 & E3);
       first [ reflexivity | discriminate E2 | discriminate E3
             | now destruct E1 ] ])).
Qed.

Lemma pending_badge_iff_later_witness :
  Tasks.badge (sample_task pendente "2024-01-03") jan2_morning = span_pendente /\
  Dashboard.badge (sample_task atrasada "2024-02-01") jan2_morning = span_pendente.
Proof.
  assert (Hnow : iso_ok (utc_date jan2_morning))
    by (unfold iso_ok, jan2_morning; simpl; lia).
  assert (H3 : iso_ok (mkDay 2024 1 3)) by (unfold iso_ok; simpl; lia).
  assert (H1 : iso_ok (mkDay 2024 2 1)) by (unfold iso_ok; simpl; lia).
  destruct (pending_badge_iff_later (sample_task pendente "2024-01-03")
              jan2_morning (mkDay 2024 1 3) eq_refl H3 Hnow) as [HT _].
  destruct (pending_badge_iff_later (sample_task atrasada "2024-02-01")
              jan2_morning (mkDay 2024 2 1) eq_refl H1 Hnow) as [_ HD].
  split.
  - apply HT. split; [discriminate | unfold date_lt; simpl; lia].
  - apply HD. split; [discriminate | unfold date_lt; simpl; lia].
Defined.

(** X2. For every status text, due-date text and instant the two screens
    show the same indicator, one of the four; their spans differ at most in
    the label of the completed one. *)
Theorem screens_show_same_indicator (status dueDate : string) (now : Js.Date) :
  className (Tasks.getStatusBadge status dueDate now) =
    className (Dashboard.getStatusBadge status dueDate now) /\
  In (className (Tasks.getStatusBadge status dueDate now))
    [cls_concluida; cls_atrasada; cls_hoje; cls_pendente] /\
  (Tasks.getStatusBadge status dueDate now =
     Dashboard.getStatusBadge status dueDate now \/
   Js.seq status "concluida" = true).
Proof.
  unfold Tasks.getStatusBadge, Dashboard.getStatusBadge.
  destruct (Js.seq status "concluida");
    [|destruct (Js.lt dueDate (Js.today now));
      [|destruct (Js.seq dueDate (Js.today now))]];
    cbn [className In]; repeat split; auto 6.
Qed.

(** X3. The indicator depends on the instant through its calendar day
    only: two instants of the same day, whatever their time of day and
    whatever the year, give every task the same span. *)
Theorem badge_ignores_time_of_day (now now' : Js.Date)
    (status dueDate : string) :
  Js.year now = Js.year now' -> Js.month now = Js.month now' ->
  Js.day now = Js.day now' ->
  Js.today now = Js.today now' /\
  Tasks.getStatusBadge status dueDate now =
    Tasks.getStatusBadge status dueDate now' /\
  Dashboard.getStatusBadge status dueDate now =
    Dashboard.getStatusBadge status dueDate now'.
Proof.
  intros Hy Hm Hd.
  assert (E : Js.today now = Js.today now')
    by (rewrite !today_text, Hy, Hm, Hd; reflexivity).
  unfold Tasks.getStatusBadge, Dashboard.getStatusBadge. rewrite E.
  repeat split.
Qed.

Lemma badge_ignores_time_of_day_witness :
  Tasks.getStatusBadge "pendente" "2024-01-01" jan2_morning =
  Tasks.getStatusBadge "pendente" "2024-01-01"
    (Js.mkDate 2024 1 2 23 59 59 999).
Proof.
  apply (badge_ignores_time_of_day jan2_morning
           (Js.mkDate 2024 1 2 23 59 59 999)); reflexivity.
Defined.

(** X4. The "overdue" filter is the "pendente" filter followed by the
    date test, so what it lists is listed under "pendente", in the same
    order, and is never more. *)
Theorem overdue_within_pending (ts : list task) (now : Js.Date) :
  Tasks.filterTasks "overdue" ts now =
    List.filter (fun t => Js.lt (due_date t) (Js.today now))
      (Tasks.filterTasks "pendente" ts now) /\
  (List.length (Tasks.filterTasks "overdue" ts now) <=
   List.length (Tasks.filterTasks "pendente" ts now))%nat /\
  (forall t, In t (Tasks.filterTasks "overdue" ts now) ->
             In t (Tasks.filterTasks "pendente" ts now)).
Proof.
  assert (E : Tasks.filterTasks "overdue" ts now =
              List.filter (fun t => Js.lt (due_date t) (Js.today now))
                (Tasks.filterTasks "pendente" ts now)).
  { unfold Tasks.filterTasks.
    change (Js.seq "overdue" "all") with false.
    change (Js.seq "overdue" "overdue") with true.
    change (Js.seq "pendente" "all") with false.
    change (Js.seq "pendente" "overdue") with false. cbv iota.
    apply filter_andb. }
  split; [exact E|]. rewrite E. split.
  - apply List.filter_length_le.
  - intros t Hin. now apply filter_In in Hin as [Hin _].
Qed.

(** X5. The filter "all" shows every task; a filter named after a stored
    status keeps exactly the tasks stored with it; so a task stored as
    "atrasada" is listed under none of "pendente", "concluida" and
    "overdue". *)
Theorem status_filter_membership (ts : list task) (now : Js.Date) (t : task) :
  Tasks.filterTasks "all" ts now = ts /\
  (forall s, In t (Tasks.filterTasks (status_text s) ts now) <->
             In t ts /\ status t = s) /\
  match status t with
  | atrasada =>
      ~ In t (Tasks.filterTasks "pendente" ts now) /\
      ~ In t (Tasks.filterTasks "concluida" ts now) /\
      ~ In t (Tasks.filterTasks "overdue" ts now)
  | _ => True
  end.
Proof.
  assert (Hmem : forall s, In t (Tasks.filterTasks (status_text s) ts now) <->
                           In t ts /\ status t = s).
  { intros s. unfold Tasks.filterTasks.
    assert (E1 : Js.seq (status_text s) "all" = false) by now destruct s.
    assert (E2 : Js.seq (status_text s) "overdue" = false) by now destruct s.
    rewrite E1, E2. rewrite filter_In.
    assert (E : Js.seq (status_text (status t)) (status_text s) = true <->
                status t = s)
      by (destruct (status t), s; cbn; split; congruence).
    now rewrite E. }
  split; [reflexivity|]. split; [exact Hmem|].
  destruct (status t) eqn:Hs; try exact I.
  split; [|split].
  - intros H. apply (Hmem pendente) in H as [_ H]. congruence.
  - intros H. apply (Hmem concluida) in H as [_ H]. congruence.
  - intros H. apply filter_overdue_iff in H as (_ & H & _). congruence.
Qed.

(* ===================================================================== *)
(** ** More on the statements of the data-access layer *)
(* ===================================================================== *)

Section MoreStatements.

Lemma filter_none {A} (f : A -> bool) (l : list A) :
  (forall x, In x l -> f x = false) -> List.filter f l = [].
Proof.
  induction l as [|x l IH]; intros H; [reflexivity|]. cbn [List.filter].
  rewrite (H x) by now left. apply IH. intros y Hy. apply H. now right.
Qed.

Lemma filter_all {A} (f : A -> bool) (l : list A) :
  (forall x, In x l -> f x = true) -> List.filter f l = l.
Proof.
  induction l as [|x l IH]; intros H; [reflexivity|]. cbn [List.filter].
  rewrite (H x) by now left. f_equal. apply IH. intros y Hy. apply H. now right.
Qed.

Lemma filter_nil_In {A} (f : A -> bool) (l : list A) (x : A) :
  List.filter f l = [] -> In x l -> f x = false.
Proof.
  intros E Hin. destruct (f x) eqn:Hf; [|reflexivity].
  assert (Hx : In x (List.filter f l)) by (apply filter_In; now split).
  rewrite E in Hx. destruct Hx.
Qed.

Lemma map_same {A} (f : A -> A) (l : list A) :
  (forall x, In x l -> f x = x) -> List.map f l = l.
Proof.
  induction l as [|x l IH]; intros H; [reflexivity|]. cbn [List.map].
  rewrite (H x) by now left. f_equal. apply IH. intros y Hy. apply H. now right.
Qed.

Lemma on_delete_set_null_nil (t : task) : Rls.on_delete_set_null [] t = t.
Proof.
  unfold Rls.on_delete_set_null. now destruct (client_id t).
Qed.

Lemma mapM_None_In {A B} (f : A -> option B) (l : list A) (x : A) :
  In x l -> f x = None -> mapM f l = None.
Proof.
  intros Hin Hx. destruct (mapM f l) as [k|] eqn:E; [|reflexivity].
  apply mapM_Some in E. exfalso. revert Hin.
  induction E as [|a b l l' Hab _ IH]; intros Hin; [destruct Hin|].
  destruct Hin as [<-|Hin]; [congruence | auto].
Qed.

(** Deleting clients when the statement hits none changes nothing. *)
Lemma delete_clients_none caller where_ (st : state) :
  Rls.select_clients caller where_ st = [] ->
  Rls.delete_clients caller where_ st = st.
Proof.
  unfold Rls.select_clients, Rls.delete_clients. intros E. rewrite E.
  destruct st as [us ps cs ts]. cbn [users profiles clients tasks] in *.
  f_equal.
  - apply filter_all. intros c Hc. now rewrite (filter_nil_In _ cs c E Hc).
  - apply map_same. intros t _. apply on_delete_set_null_nil.
Qed.

Lemma delete_clients_gone caller where_ (st : state) :
  Rls.select_clients caller where_ (Rls.delete_clients caller where_ st) = [].
Proof.
  unfold Rls.select_clients, Rls.delete_clients. cbn [clients].
  apply filter_none. intros c Hc. apply filter_In in Hc as [_ Hc].
  now apply negb_true_iff in Hc.
Qed.

End MoreStatements.

(** X6. A second toggle with the same list object (before the list is
    fetched again) changes nothing more: the status written is computed
    from the object, not from the row. *)
Theorem toggle_same_object_idempotent (caller : option uuid) (t : task)
    (st : state) :
  TasksPage.toggleTaskComplete caller t
    (TasksPage.toggleTaskComplete caller t st) =
  TasksPage.toggleTaskComplete caller t st.
Proof.
  unfold TasksPage.toggleTaskComplete.
  rewrite !update_tasks_plain by reflexivity. cbn [attempt].
  destruct st as [us ps cs ts]. unfold Rls.with_tasks.
  cbn [users profiles clients tasks]. f_equal.
  rewrite List.map_map. apply List.map_ext. intros r.
  destruct r as [i u c ti d ty due s cr].
  unfold Rls.apply_task_patch, TasksPage.status_patch.
  cbn [task_id task_user_id client_id title description ttype due_date status
       task_created_at Rls.set_title Rls.set_description Rls.set_task_type
       Rls.set_due_date Rls.set_client_id Rls.set_task_user_id Rls.set_status
       default].
  destruct (Rls.is_owner caller u && String.eqb i (task_id t)) eqn:E;
    cbn [task_id task_user_id]; now rewrite E.
Qed.

(** X7. Without a session ([auth.uid()] is NULL) every query on clients
    and tasks is empty, every insertion is refused, and every update and
    deletion goes through without touching a row. *)
Theorem no_session_no_access (st : state) :
  (forall where_, Rls.select_tasks None where_ st = []) /\
  (forall where_, Rls.select_clients None where_ st = []) /\
  (forall row, Rls.insert_task None row st = None) /\
  (forall row, Rls.insert_client None row st = None) /\
  (forall where_ p, Rls.update_tasks None where_ p st = Some st) /\
  (forall where_ p, Rls.update_clients None where_ p st = Some st) /\
  (forall where_, Rls.delete_tasks None where_ st = st) /\
  (forall where_, Rls.delete_clients None where_ st = st).
Proof.
  assert (Hst : forall where_, Rls.select_tasks None where_ st = [])
    by (intros w; apply filter_none; reflexivity).
  assert (Hsc : forall where_, Rls.select_clients None where_ st = [])
    by (intros w; apply filter_none; reflexivity).
  split; [exact Hst|]. split; [exact Hsc|].
  split; [reflexivity|]. split; [reflexivity|].
  split; [|split; [|split]].
  - intros w p. unfold Rls.update_tasks.
    rewrite (mapM_ext_Some _ (fun t => Some (Datatypes.id t))) by reflexivity.
    rewrite mapM_total, List.map_id. now destruct st.
  - intros w p. unfold Rls.update_clients.
    rewrite (mapM_ext_Some _ (fun c => Some (Datatypes.id c))) by reflexivity.
    rewrite mapM_total, List.map_id. now destruct st.
  - intros w. unfold Rls.delete_tasks, Rls.with_tasks.
    rewrite filter_all by reflexivity. now destruct st.
  - intros w. apply delete_clients_none. apply Hsc.
Qed.

(** X8. No update changes who owns a row: after an update that went
    through, by whatever caller and with whatever payload, the tasks (and
    the clients) have the same owners, row by row. *)
Theorem update_keeps_owner (caller : option uuid) (st : state) :
  (forall where_ p,
     match Rls.update_tasks caller where_ p st with
     | Some st' =>
         List.map task_user_id (tasks st') = List.map task_user_id (tasks st)
     | None => True
     end) /\
  (forall where_ p,
     match Rls.update_clients caller where_ p st with
     | Some st' =>
         List.map cl_user_id (clients st') = List.map cl_user_id (clients st)
     | None => True
     end).
Proof.
  assert (Hown : forall a b, Rls.is_owner caller a = true ->
                             Rls.is_owner caller b = true -> b = a).
  { unfold Rls.is_owner. destruct caller as [v|]; [|discriminate].
    intros a b Ha Hb. apply String.eqb_eq in Ha, Hb. congruence. }
  split; intros w p.
  - destruct (Rls.update_tasks caller w p st) as [st'|] eqn:E; [|exact I].
    apply update_tasks_spec in E as (_ & _ & _ & H2).
    induction H2 as [|t t' l l' Hrow _ IH]; [reflexivity|].
    cbn [List.map]. rewrite IH.
    apply update_task_row_cases in Hrow as [->|(Ho & _ & _ & Ho')];
      [reflexivity|].
    now rewrite (Hown _ _ Ho Ho').
  - unfold Rls.update_clients.
    destruct (mapM _ (clients st)) as [cs|] eqn:E; cbn [mbind option_bind];
      [|exact I].
    apply mapM_Some in E. cbn [clients Rls.with_clients].
    induction E as [|c c' l l' Hrow _ IH]; [reflexivity|].
    cbn [List.map]. rewrite IH. clear IH.
    unfold Rls.update_client_row in Hrow.
    destruct (Rls.is_owner caller (cl_user_id c)) eqn:Ho; cbn [andb] in Hrow;
      [|now injection Hrow as <-].
    destruct (w c); [|now injection Hrow as <-].
    destruct (Rls.is_owner caller (cl_user_id (Rls.apply_client_patch p c)))
      eqn:Ho'; cbn [negb] in Hrow; [|discriminate].
    destruct (negb _) in Hrow; [discriminate|]. injection Hrow as <-.
    now rewrite (Hown _ _ Ho Ho').
Qed.

(** X9. An update that names another user as the owner of a row it
    reaches is refused as a whole. *)
Theorem update_cannot_give_row_away (caller : option uuid)
    (where_ : task -> bool) (p : Rls.task_patch) (st : state)
    (t : task) (v : uuid) :
  In t (tasks st) -> Rls.is_owner caller (task_user_id t) = true ->
  where_ t = true -> Rls.set_task_user_id p = Some v ->
  Rls.is_owner caller v = false ->
  Rls.update_tasks caller where_ p st = None.
Proof.
  intros Hin Ho Hw Hp Hv. unfold Rls.update_tasks.
  rewrite (mapM_None_In _ (tasks st) t Hin); [reflexivity|].
  unfold Rls.update_task_row. rewrite Ho, Hw. cbn [andb]. cbv zeta.
  unfold Rls.apply_task_patch. cbn [task_user_id]. rewrite Hp.
  cbn [default from_option Datatypes.id]. now rewrite Hv.
Qed.

Lemma update_cannot_give_row_away_witness :
  Rls.update_tasks (Some "u-2") (fun t => String.eqb (task_id t) "t-2")
    (TaskFormPage.taskData "u-1" (task_form None)) office = None.
Proof.
  apply (update_cannot_give_row_away (Some "u-2") _ _ office
           (mkTask "t-2" "u-2" (Some "c-1") "IRPF 2024" None imposto
              "2024-01-01" pendente 4) "u-1");
    [left; reflexivity | reflexivity | reflexivity | reflexivity | reflexivity].
Defined.

(** X10. A task that was inserted is what its owner reads back by id,
    alone; a caller who does not own it reads nothing under that id. *)
Theorem insert_then_select (caller : option uuid) (row : task) (st st' : state) :
  Rls.insert_task caller row st = Some st' ->
  Rls.select_tasks caller (fun t => String.eqb (task_id t) (task_id row)) st'
    = [row] /\
  (forall reader,
     Rls.is_owner reader (task_user_id row) = false ->
     Rls.select_tasks reader (fun t => String.eqb (task_id t) (task_id row)) st'
     = []) /\
  tasks st' = (tasks st ++ [row])%list.
Proof.
  unfold Rls.insert_task.
  destruct (Rls.is_owner caller (task_user_id row)) eqn:Ho; cbn [negb];
    [|discriminate].
  destruct (Sql.has_id task_id (task_id row) (tasks st)) eqn:Hk; [discriminate|].
  destruct (negb _); [discriminate|]. destruct (negb _); [discriminate|].
  intros [= <-]. cbn [tasks Rls.with_tasks].
  assert (Hold : forall reader,
            List.filter
              (fun t => Rls.is_owner reader (task_user_id t)
                        && String.eqb (task_id t) (task_id row)) (tasks st) = []).
  { intros reader. apply filter_none. intros t Hin.
    rewrite (has_id_false_In task_id _ _ t Hk Hin). apply andb_false_r. }
  unfold Rls.select_tasks, Rls.with_tasks. cbn [tasks].
  split; [|split; [|reflexivity]].
  - rewrite List.filter_app, Hold. cbn [List.filter app].
    now rewrite Ho, String.eqb_refl.
  - intros reader Hr. rewrite List.filter_app, Hold. cbn [List.filter app].
    now rewrite Hr.
Qed.

Lemma insert_then_select_witness :
  exists st',
    Rls.insert_task (Some "u-1")
      (TaskFormPage.inserted_row "u-1" (task_form None) "t-7" 9) office
      = Some st' /\
    Rls.select_tasks (Some "u-1") (fun t => String.eqb (task_id t) "t-7") st'
      = [TaskFormPage.inserted_row "u-1" (task_form None) "t-7" 9] /\
    Rls.select_tasks (Some "u-2") (fun t => String.eqb (task_id t) "t-7") st'
      = [].
Proof.
  destruct (Rls.insert_task (Some "u-1")
              (TaskFormPage.inserted_row "u-1" (task_form None) "t-7" 9) office)
    as [st'|] eqn:E; [|vm_compute in E; discriminate E].
  exists st'. split; [reflexivity|].
  destruct (insert_then_select _ _ _ _ E) as (Hown & Hother & _).
  split; [exact Hown | now apply Hother].
Defined.

(** X11. Deleting from the clients screen without an id, or with an empty
    one, is a no-op; after a deletion the caller reads no client under the
    deleted id; and repeating a deletion changes nothing more. *)
Theorem client_delete_edges (caller : option uuid) (deleteId : option string)
    (st : state) :
  ClientsPage.handleDelete caller None st = st /\
  ClientsPage.handleDelete caller (Some "") st = st /\
  match or_null deleteId with
  | Some cid =>
      Rls.select_clients caller (fun c => String.eqb (cl_id c) cid)
        (ClientsPage.handleDelete caller deleteId st) = []
  | None => ClientsPage.handleDelete caller deleteId st = st
  end /\
  ClientsPage.handleDelete caller deleteId
    (ClientsPage.handleDelete caller deleteId st) =
  ClientsPage.handleDelete caller deleteId st.
Proof.
  split; [reflexivity|]. split; [reflexivity|].
  unfold ClientsPage.handleDelete.
  destruct (or_null deleteId) as [cid|]; [|now split].
  split; [apply delete_clients_gone|].
  apply delete_clients_none, delete_clients_gone.
Qed.

(** X12. Asking to delete a client that the caller does not own, or that
    does not exist, changes nothing: no client goes and no task loses its
    client. *)
Theorem delete_foreign_client_is_noop (caller : option uuid) (cid : uuid)
    (st : state) :
  Rls.select_clients caller (fun c => String.eqb (cl_id c) cid) st = [] ->
  ClientsPage.handleDelete caller (Some cid) st = st.
Proof.
  intros E. unfold ClientsPage.handleDelete, or_null.
  destruct (String.eqb cid ""); [reflexivity|].
  now apply delete_clients_none.
Qed.

Lemma delete_foreign_client_is_noop_witness :
  ClientsPage.handleDelete (Some "u-1") (Some "c-1") office = office /\
  ClientsPage.handleDelete (Some "u-2") (Some "c-404") office = office.
Proof.
  split.
  - apply (delete_foreign_client_is_noop (Some "u-1") "c-1" office).
    reflexivity.
  - apply (delete_foreign_client_is_noop (Some "u-2") "c-404" office).
    reflexivity.
Defined.

(** X13. [update_last_login] touches nothing but [last_login], and of
    the profile of its identity only: the other tables and the number of
    profiles stay, every profile keeps its other columns, a profile of
    another id keeps its [last_login] too. *)
Theorem update_last_login_frame (now : N) (NEW : auth_user) (st : state) :
  users (update_last_login now NEW st) = users st /\
  clients (update_last_login now NEW st) = clients st /\
  tasks (update_last_login now NEW st) = tasks st /\
  Forall2
    (fun p p' =>
       pr_id p' = pr_id p /\ pr_name p' = pr_name p /\
       pr_email p' = pr_email p /\ pr_account_type p' = pr_account_type p /\
       pr_created_at p' = pr_created_at p /\
       last_login p' =
         (if String.eqb (pr_id p) (id NEW) then Some now else last_login p))
    (profiles st) (profiles (update_last_login now NEW st)).
Proof.
  repeat split. unfold update_last_login. cbn [profiles].
  induction (profiles st) as [|p l IH]; [constructor|].
  cbn [List.map]. constructor; [|exact IH].
  destruct (String.eqb (pr_id p) (id NEW)); repeat split.
Qed.

(** X14. A sign-in of an identity that has no profile creates none and
    changes nothing. *)
Theorem update_last_login_without_profile (now : N) (NEW : auth_user)
    (st : state) :
  Sql.has_id pr_id (id NEW) (profiles st) = false ->
  update_last_login now NEW st = st.
Proof.
  intros H. unfold update_last_login. destruct st as [us ps cs ts].
  cbn [users profiles clients tasks] in *. f_equal.
  apply map_same. intros p Hp.
  now rewrite (has_id_false_In pr_id _ _ p H Hp).
Qed.

Lemma update_last_login_without_profile_witness :
  update_last_login 9 carla office = office.
Proof.
  apply (update_last_login_without_profile 9 carla office). reflexivity.
Defined.

(** X15. Saving the profile form changes nothing but names, and the name
    of a profile only when its id is both the caller's and the one the
    form addresses: nobody renames another user's profile. *)
Theorem profile_submit_own_name_only (caller profile_id : option uuid)
    (name : string) (st : state) :
  users (ProfilePage.onProfileSubmit caller profile_id name st) = users st /\
  clients (ProfilePage.onProfileSubmit caller profile_id name st) = clients st /\
  tasks (ProfilePage.onProfileSubmit caller profile_id name st) = tasks st /\
  Forall2
    (fun p p' =>
       pr_id p' = pr_id p /\ pr_email p' = pr_email p /\
       pr_account_type p' = pr_account_type p /\
       pr_created_at p' = pr_created_at p /\ last_login p' = last_login p /\
       (pr_name p' = pr_name p \/
        (caller = Some (pr_id p) /\ profile_id = Some (pr_id p) /\
         pr_name p' = name)))
    (profiles st)
    (profiles (ProfilePage.onProfileSubmit caller profile_id name st)).
Proof.
  unfold ProfilePage.onProfileSubmit. destruct profile_id as [pid|].
  - repeat split. cbn [profiles].
    induction (profiles st) as [|p l IH]; [constructor|].
    cbn [List.map]. constructor; [|exact IH].
    destruct (Rls.is_owner caller (pr_id p)) eqn:Ho; cbn [andb];
      [|repeat split; now left].
    destruct (String.eqb (pr_id p) pid) eqn:Hp; [|repeat split; now left].
    repeat split. right. apply String.eqb_eq in Hp. subst pid.
    unfold Rls.is_owner in Ho. destruct caller as [v|]; [|discriminate].
    apply String.eqb_eq in Ho. subst v. repeat split.
  - repeat split. induction (profiles st) as [|p l IH]; constructor; auto.
    repeat split. now left.
Qed.

(** X16. A signup under the id of an identity, or of a profile, that is
    already there is refused and changes nothing. *)
Theorem signup_refuses_known_id (now : N) (u : auth_user) (st : state) :
  Sql.has_id id (id u) (users st) = true \/
  Sql.has_id pr_id (id u) (profiles st) = true ->
  insert_auth_user now u st = None /\ exec (SignUp now u) st = st.
Proof.
  intros H.
  assert (E : insert_auth_user now u st = None).
  { destruct (insert_auth_user now u st) as [st'|] eqn:E; [|reflexivity].
    apply insert_auth_user_spec in E as (Hu & Hp & _).
    destruct H; congruence. }
  split; [exact E|]. cbn [exec]. now rewrite E.
Qed.

Lemma signup_refuses_known_id_witness :
  exec (SignUp 9 (mkUser "u-1" "other@example.com" None)) office = office.
Proof.
  apply (signup_refuses_known_id 9 (mkUser "u-1" "other@example.com" None) office).
  left. reflexivity.
Defined.

(* ===================================================================== *)
(** ** What a history of actions keeps true *)
(* ===================================================================== *)

Section Histories.

Lemma insert_task_spec caller (row : task) (st st' : state) :
  Rls.insert_task caller row st = Some st' ->
  Rls.is_owner caller (task_user_id row) = true /\
  Sql.has_id task_id (task_id row) (tasks st) = false /\
  Sql.has_id pr_id (task_user_id row) (profiles st) = true /\
  Sql.ref_ok cl_id (client_id row) (clients st) = true /\
  st' = Rls.with_tasks st (tasks st ++ [row]).
Proof.
  unfold Rls.insert_task.
  destruct (Rls.is_owner caller (task_user_id row)); cbn [negb]; [|discriminate].
  destruct (Sql.has_id task_id (task_id row) (tasks st)); [discriminate|].
  destruct (Sql.has_id pr_id (task_user_id row) (profiles st)); cbn [negb];
    [|discriminate].
  destruct (Sql.ref_ok cl_id (client_id row) (clients st)); cbn [negb];
    [|discriminate].
  intros [= <-]. repeat split.
Qed.

Lemma insert_client_spec caller (row : client) (st st' : state) :
  Rls.insert_client caller row st = Some st' ->
  Rls.is_owner caller (cl_user_id row) = true /\
  Sql.has_id cl_id (cl_id row) (clients st) = false /\
  Sql.has_id pr_id (cl_user_id row) (profiles st) = true /\
  st' = Rls.with_clients st (clients st ++ [row]).
Proof.
  unfold Rls.insert_client.
  destruct (Rls.is_owner caller (cl_user_id row)); cbn [negb]; [|discriminate].
  destruct (Sql.has_id cl_id (cl_id row) (clients st)); [discriminate|].
  destruct (Sql.has_id pr_id (cl_user_id row) (profiles st)); cbn [negb];
    [|discriminate].
  intros [= <-]. repeat split.
Qed.

(** What an update that went through has checked on a rewritten task. *)
Lemma update_task_row_checked caller where_ p st (t t' : task) :
  Rls.update_task_row caller where_ p st t = Some t' ->
  t' = t \/
  (t' = Rls.apply_task_patch p t /\
   (String.eqb (task_user_id t') (task_user_id t)
    || Sql.has_id pr_id (task_user_id t') (profiles st)) = true /\
   (bool_decide (client_id t' = client_id t)
    || Sql.ref_ok cl_id (client_id t') (clients st)) = true).
Proof.
  unfold Rls.update_task_row.
  destruct (Rls.is_owner caller (task_user_id t) && where_ t);
    [|intros [= <-]; now left].
  cbv zeta. destruct (negb (Rls.is_owner caller _)); [discriminate|].
  destruct (String.eqb _ _ || Sql.has_id pr_id _ _) eqn:E1; cbn [negb];
    [|discriminate].
  destruct (bool_decide _ || Sql.ref_ok cl_id _ _) eqn:E2; cbn [negb];
    [|discriminate].
  intros [= <-]. right. auto.
Qed.

Lemma update_client_row_checked caller where_ p st (c c' : client) :
  Rls.update_client_row caller where_ p st c = Some c' ->
  c' = c \/
  (c' = Rls.apply_client_patch p c /\
   (String.eqb (cl_user_id c') (cl_user_id c)
    || Sql.has_id pr_id (cl_user_id c') (profiles st)) = true).
Proof.
  unfold Rls.update_client_row.
  destruct (Rls.is_owner caller (cl_user_id c) && where_ c);
    [|intros [= <-]; now left].
  cbv zeta. destruct (negb (Rls.is_owner caller _)); [discriminate|].
  destruct (String.eqb _ _ || Sql.has_id pr_id _ _) eqn:E1; cbn [negb];
    [|discriminate].
  intros [= <-]. right. auto.
Qed.

Lemma update_clients_spec caller where_ p (st st' : state) :
  Rls.update_clients caller where_ p st = Some st' ->
  users st' = users st /\ profiles st' = profiles st /\ tasks st' = tasks st /\
  Forall2 (fun c c' => Rls.update_client_row caller where_ p st c = Some c')
    (clients st) (clients st').
Proof.
  unfold Rls.update_clients.
  destruct (mapM _ (clients st)) as [cs|] eqn:E; [|discriminate].
  intros [= <-]. repeat split. now apply mapM_Some.
Qed.

Lemma update_clients_Forall (P : client -> Prop) caller where_ p
    (st st' : state) :
  (forall c, P c -> P (Rls.apply_client_patch p c)) ->
  Rls.update_clients caller where_ p st = Some st' ->
  Forall P (clients st) -> Forall P (clients st').
Proof.
  intros HP Hup. apply update_clients_spec in Hup as (_ & _ & _ & H2).
  induction H2 as [|c c' l l' Hrow _ IH]; intros Hall; [constructor|].
  inversion Hall as [|? ? Pc Pl]; subst. constructor; [|now apply IH].
  apply update_client_row_checked in Hrow as [->|(-> & _)]; auto.
Qed.

Lemma or_null_not_empty (x : option string) : or_null x <> Some "".
Proof.
  unfold or_null. destruct x as [s|]; [|discriminate].
  destruct (String.eqb s "") eqn:E; [discriminate|].
  intros [= ->]. discriminate E.
Qed.

Lemma exec_no_empty_text (a : action) (st : state) :
  no_empty_text st -> no_empty_text (exec a st).
Proof.
  intros [HT HC].
  destruct a as [now u|now uid|user editing data fresh now|caller t
                |user editing data fresh now|caller deleteId|caller pid name];
    cbn [exec].
  - unfold attempt. destruct (insert_auth_user now u st) eqn:E; [|now split].
    apply insert_auth_user_spec in E as (_ & _ & _ & Ec & Et & _).
    unfold no_empty_text. now rewrite Ec, Et.
  - unfold attempt, sign_in. destruct (List.find _ (users st)); now split.
  - unfold TaskFormPage.onSubmit, attempt.
    destruct user as [uid|]; [|now split]. destruct editing as [tid|].
    + destruct (Rls.update_tasks _ _ _ st) as [st'|] eqn:E; [|now split].
      split.
      * revert HT. apply update_tasks_Forall with (2 := E).
        intros r _. split; apply or_null_not_empty.
      * apply update_tasks_spec in E as (_ & _ & -> & _). exact HC.
    + destruct (Rls.insert_task _ _ st) as [st'|] eqn:E; [|now split].
      apply insert_task_spec in E as (_ & _ & _ & _ & ->). split; [|exact HC].
      cbn [tasks Rls.with_tasks]. apply Forall_app. split; [exact HT|].
      constructor; [|constructor]. split; apply or_null_not_empty.
  - unfold TasksPage.toggleTaskComplete, attempt.
    destruct (Rls.update_tasks _ _ _ st) as [st'|] eqn:E; [|now split].
    split.
    + revert HT. apply update_tasks_Forall with (2 := E).
      intros r Hr. exact Hr.
    + apply update_tasks_spec in E as (_ & _ & -> & _). exact HC.
  - unfold ClientFormPage.onSubmit, attempt.
    destruct user as [uid|]; [|now split]. destruct editing as [cid|].
    + destruct (Rls.update_clients _ _ _ st) as [st'|] eqn:E; [|now split].
      split.
      * apply update_clients_spec in E as (_ & _ & -> & _). exact HT.
      * revert HC. apply update_clients_Forall with (2 := E).
        intros c _. split; apply or_null_not_empty.
    + destruct (Rls.insert_client _ _ st) as [st'|] eqn:E; [|now split].
      apply insert_client_spec in E as (_ & _ & _ & ->). split; [exact HT|].
      cbn [clients Rls.with_clients]. apply Forall_app. split; [exact HC|].
      constructor; [|constructor]. split; apply or_null_not_empty.
  - unfold ClientsPage.handleDelete. destruct (or_null deleteId); [|now split].
    split; cbn [Rls.delete_clients tasks clients].
    + apply List.Forall_forall. intros t' Hin.
      apply in_map_iff in Hin as (t & <- & Hin).
      rewrite List.Forall_forall in HT. destruct (HT t Hin) as [Hd Hc].
      destruct (on_delete_set_null_same
                  (List.filter
                     (fun c => Rls.is_owner caller (cl_user_id c)
                               && String.eqb (cl_id c) s) (clients st)) t)
        as (_ & _ & _ & -> & _).
      split; [exact Hd|]. rewrite on_delete_set_null_client.
      destruct (client_id t) as [k|]; [|discriminate].
      destruct (Sql.has_id cl_id k _); [discriminate | exact Hc].
    + apply List.Forall_forall. intros c Hin.
      apply filter_In in Hin as [Hin _].
      rewrite List.Forall_forall in HC. now apply HC.
  - unfold ProfilePage.onProfileSubmit. destruct pid; now split.
Qed.

End Histories.

(** X17. The forms never store an empty text in an optional column:
    after any history of actions on an empty database no task has an empty
    description or client reference and no client an empty e-mail or phone
    (an empty field is stored as null). *)
Theorem forms_store_no_empty_text (history : list action) :
  no_empty_text (run history empty_db).
Proof.
  assert (H : forall st, no_empty_text st -> no_empty_text (run history st)).
  { induction history as [|a h IH]; intros st Hst; [exact Hst|].
    cbn [run fold_left]. apply IH. now apply exec_no_empty_text. }
  apply H. split; constructor.
Qed.

Section Keys.

Lemma NoDup_snoc {A} (l : list A) (x : A) :
  List.NoDup l -> ~ In x l -> List.NoDup (l ++ [x]).
Proof.
  induction l as [|y l IH]; intros Hnd Hx; cbn [app].
  - constructor; [intros [] | constructor].
  - apply List.NoDup_cons_iff in Hnd as [Hy Hnd].
    apply List.NoDup_cons_iff. split.
    + rewrite in_app_iff. intros [H|[H|[]]]; [now apply Hy|].
      subst. apply Hx. now left.
    + apply IH; [exact Hnd|]. intros H. apply Hx. now right.
Qed.

Lemma has_id_false_not_In {A} (key : A -> uuid) (k : uuid) (l : list A) :
  Sql.has_id key k l = false -> ~ In k (List.map key l).
Proof.
  intros H Hin. apply in_map_iff in Hin as (r & <- & Hin).
  pose proof (has_id_false_In key (key r) l r H Hin) as E.
  now rewrite String.eqb_refl in E.
Qed.

Lemma NoDup_map_filter {A B} (f : A -> B) (p : A -> bool) (l : list A) :
  List.NoDup (List.map f l) -> List.NoDup (List.map f (List.filter p l)).
Proof.
  induction l as [|x l IH]; intros Hnd; [constructor|].
  cbn [List.map] in Hnd. apply List.NoDup_cons_iff in Hnd as [Hx Hnd].
  cbn [List.filter]. destruct (p x); [|now apply IH].
  cbn [List.map]. apply List.NoDup_cons_iff. split; [|now apply IH].
  intros Hin. apply Hx. apply in_map_iff in Hin as (y & E & Hy).
  apply in_map_iff. exists y. split; [exact E|].
  now apply filter_In in Hy as [Hy _].
Qed.

Lemma update_tasks_ids caller where_ p (st st' : state) :
  Rls.update_tasks caller where_ p st = Some st' ->
  List.map task_id (tasks st') = List.map task_id (tasks st).
Proof.
  intros E. apply update_tasks_spec in E as (_ & _ & _ & H2).
  induction H2 as [|t t' l l' Hrow _ IH]; [reflexivity|].
  cbn [List.map]. rewrite IH.
  now apply update_task_row_checked in Hrow as [->|(-> & _)].
Qed.

Lemma update_clients_ids caller where_ p (st st' : state) :
  Rls.update_clients caller where_ p st = Some st' ->
  List.map cl_id (clients st') = List.map cl_id (clients st).
Proof.
  intros E. apply update_clients_spec in E as (_ & _ & _ & H2).
  induction H2 as [|c c' l l' Hrow _ IH]; [reflexivity|].
  cbn [List.map]. rewrite IH.
  now apply update_client_row_checked in Hrow as [->|(-> & _)].
Qed.

Lemma map_key_same {A B} (key : A -> B) (g : A -> A) (l : list A) :
  (forall r, key (g r) = key r) ->
  List.map key (List.map g l) = List.map key l.
Proof.
  intros Hg. rewrite List.map_map. apply List.map_ext. exact Hg.
Qed.

Lemma on_delete_set_null_id gone (t : task) :
  task_id (Rls.on_delete_set_null gone t) = task_id t.
Proof. now destruct (on_delete_set_null_same gone t) as (-> & _). Qed.

Lemma exec_keys_unique (a : action) (st : state) :
  keys_unique st -> keys_unique (exec a st).
Proof.
  intros (HU & HP & HC & HT).
  destruct a as [now u|now uid|user editing data fresh now|caller t
                |user editing data fresh now|caller deleteId|caller pid name];
    cbn [exec].
  - unfold attempt. destruct (insert_auth_user now u st) eqn:E;
      [|now repeat split].
    apply insert_auth_user_spec in E
      as (Hu & Hp & Eu & Ec & Et & p & Ep & Hid & _).
    unfold keys_unique. rewrite Eu, Ep, Ec, Et, !List.map_app. cbn [List.map].
    repeat split; try assumption.
    + apply NoDup_snoc; [exact HU | now apply has_id_false_not_In].
    + rewrite Hid. apply NoDup_snoc; [exact HP | now apply has_id_false_not_In].
  - unfold attempt, sign_in.
    destruct (List.find _ (users st)) as [w|]; [|now repeat split].
    unfold keys_unique, update_last_login. cbn [users profiles clients tasks].
    repeat split; try assumption.
    rewrite map_key_same; [exact HP|].
    intros p. now destruct (String.eqb (pr_id p) (id w)).
  - unfold TaskFormPage.onSubmit, attempt.
    destruct user as [uid|]; [|now repeat split]. destruct editing as [tid|].
    + destruct (Rls.update_tasks _ _ _ st) as [st'|] eqn:E; [|now repeat split].
      pose proof (update_tasks_ids _ _ _ _ _ E) as Eid.
      apply update_tasks_spec in E as (Eu & Ep & Ec & _).
      unfold keys_unique. now rewrite Eu, Ep, Ec, Eid.
    + destruct (Rls.insert_task _ _ st) as [st'|] eqn:E; [|now repeat split].
      apply insert_task_spec in E as (_ & Hk & _ & _ & ->).
      unfold keys_unique, Rls.with_tasks. cbn [users profiles clients tasks].
      repeat split; try assumption. rewrite List.map_app. cbn [List.map].
      apply NoDup_snoc; [exact HT | now apply has_id_false_not_In].
  - unfold TasksPage.toggleTaskComplete, attempt.
    destruct (Rls.update_tasks _ _ _ st) as [st'|] eqn:E; [|now repeat split].
    pose proof (update_tasks_ids _ _ _ _ _ E) as Eid.
    apply update_tasks_spec in E as (Eu & Ep & Ec & _).
    unfold keys_unique. now rewrite Eu, Ep, Ec, Eid.
  - unfold ClientFormPage.onSubmit, attempt.
    destruct user as [uid|]; [|now repeat split]. destruct editing as [cid|].
    + destruct (Rls.update_clients _ _ _ st) as [st'|] eqn:E;
        [|now repeat split].
      pose proof (update_clients_ids _ _ _ _ _ E) as Eid.
      apply update_clients_spec in E as (Eu & Ep & Et & _).
      unfold keys_unique. now rewrite Eu, Ep, Et, Eid.
    + destruct (Rls.insert_client _ _ st) as [st'|] eqn:E; [|now repeat split].
      apply insert_client_spec in E as (_ & Hk & _ & ->).
      unfold keys_unique, Rls.with_clients. cbn [users profiles clients tasks].
      repeat split; try assumption. rewrite List.map_app. cbn [List.map].
      apply NoDup_snoc; [exact HC | now apply has_id_false_not_In].
  - unfold ClientsPage.handleDelete.
    destruct (or_null deleteId); [|now repeat split].
    unfold keys_unique, Rls.delete_clients. cbn [users profiles clients tasks].
    repeat split; try assumption.
    + now apply NoDup_map_filter.
    + rewrite map_key_same; [exact HT|]. intros r. apply on_delete_set_null_id.
  - unfold ProfilePage.onProfileSubmit.
    destruct pid as [pid|]; [|now repeat split].
    unfold keys_unique. cbn [users profiles clients tasks].
    repeat split; try assumption.
    rewrite map_key_same; [exact HP|]. intros p.
    now destruct (Rls.is_owner caller (pr_id p) && String.eqb (pr_id p) pid).
Qed.

End Keys.

(** X18. Primary keys stay unique: after any history of actions on an
    empty database no two identities, profiles, clients or tasks share an
    id (an insertion under an id in use is refused, an update cannot change
    an id). *)
Theorem primary_keys_stay_unique (history : list action) :
  keys_unique (run history empty_db).
Proof.
  assert (H : forall st, keys_unique st -> keys_unique (run history st)).
  { induction history as [|a h IH]; intros st Hst; [exact Hst|].
    cbn [run fold_left]. apply IH. now apply exec_keys_unique. }
  apply H. repeat split; constructor.
Qed.

Section References.

Lemma has_id_existsb {A} (key : A -> uuid) (k : uuid) (l : list A) :
  Sql.has_id key k l = existsb (fun x => String.eqb x k) (List.map key l).
Proof.
  unfold Sql.has_id. induction l as [|r l IH]; [reflexivity|].
  cbn [existsb List.map]. now rewrite IH.
Qed.

Lemma has_id_keys {A} (key : A -> uuid) (k : uuid) (l l' : list A) :
  List.map key l' = List.map key l ->
  Sql.has_id key k l' = Sql.has_id key k l.
Proof. intros E. now rewrite !has_id_existsb, E. Qed.

Lemma ref_ok_keys (r : option uuid) (l l' : list client) :
  List.map cl_id l' = List.map cl_id l ->
  Sql.ref_ok cl_id r l' = Sql.ref_ok cl_id r l.
Proof. intros E. destruct r as [k|]; [|reflexivity]. now apply has_id_keys. Qed.

Lemma has_id_snoc {A} (key : A -> uuid) (k : uuid) (l : list A) (x : A) :
  Sql.has_id key k l = true -> Sql.has_id key k (l ++ [x]) = true.
Proof. intros H. now rewrite has_id_app, H. Qed.

Lemma ref_ok_snoc (r : option uuid) (l : list client) (x : client) :
  Sql.ref_ok cl_id r l = true -> Sql.ref_ok cl_id r (l ++ [x]) = true.
Proof. destruct r as [k|]; [apply has_id_snoc | reflexivity]. Qed.

Lemma has_id_filter_split {A} (key : A -> uuid) (k : uuid) (p : A -> bool)
    (l : list A) :
  Sql.has_id key k l =
  Sql.has_id key k (List.filter p l)
  || Sql.has_id key k (List.filter (fun x => negb (p x)) l).
Proof.
  unfold Sql.has_id. induction l as [|x l IH]; [reflexivity|].
  cbn [existsb List.filter]. rewrite IH.
  destruct (p x); cbn [negb existsb];
    destruct (String.eqb (key x) k); cbn [orb]; try reflexivity.
  now rewrite orb_true_r.
Qed.

(** Profiles rewritten in place under the same ids. *)
Lemma refs_ok_profiles_map (g : profile -> profile) (st : state) :
  (forall p, pr_id (g p) = pr_id p) ->
  refs_ok st ->
  refs_ok (mkState (users st) (List.map g (profiles st)) (clients st) (tasks st)).
Proof.
  intros Hg (HT & HC & HP).
  assert (Hk : forall k, Sql.has_id pr_id k (List.map g (profiles st)) =
                         Sql.has_id pr_id k (profiles st))
    by (intros k; apply has_id_keys, map_key_same, Hg).
  unfold refs_ok. cbn [users profiles clients tasks]. split; [|split].
  - eapply Forall_impl; [exact HT|]. intros t [H1 H2]. now rewrite Hk.
  - eapply Forall_impl; [exact HC|]. intros c H. now rewrite Hk.
  - apply List.Forall_forall. intros p' Hin.
    apply in_map_iff in Hin as (p & <- & Hin). rewrite Hg.
    rewrite List.Forall_forall in HP. now apply HP.
Qed.

Lemma update_tasks_refs caller where_ p (st st' : state) :
  Rls.update_tasks caller where_ p st = Some st' ->
  refs_ok st -> refs_ok st'.
Proof.
  intros E (HT & HC & HP).
  apply update_tasks_spec in E as (Eu & Ep & Ec & H2).
  unfold refs_ok. rewrite Eu, Ep, Ec. split; [|now split].
  clear Eu Ep Ec HC HP.
  induction H2 as [|t t' l l' Hrow _ IH]; [constructor|].
  inversion HT as [|? ? [H1 H2'] Hl]; subst. constructor; [|now apply IH].
  apply update_task_row_checked in Hrow as [->|(-> & Hu & Hc)]; [now split|].
  split.
  - apply orb_true_iff in Hc as [Hc|Hc]; [|exact Hc].
    apply bool_decide_eq_true in Hc. now rewrite Hc.
  - apply orb_true_iff in Hu as [Hu|Hu]; [|exact Hu].
    apply String.eqb_eq in Hu. now rewrite Hu.
Qed.

Lemma update_clients_refs caller where_ p (st st' : state) :
  Rls.update_clients caller where_ p st = Some st' ->
  refs_ok st -> refs_ok st'.
Proof.
  intros E (HT & HC & HP).
  pose proof (update_clients_ids _ _ _ _ _ E) as Eid.
  apply update_clients_spec in E as (Eu & Ep & Et & H2).
  unfold refs_ok. rewrite Eu, Ep, Et. split; [|split; [|exact HP]].
  - eapply Forall_impl; [exact HT|]. intros t [H1 H2'].
    split; [|exact H2']. now rewrite (ref_ok_keys _ _ _ Eid).
  - clear Eu Ep Et Eid HT HP.
    induction H2 as [|c c' l l' Hrow _ IH]; [constructor|].
    inversion HC as [|? ? H1 Hl]; subst. constructor; [|now apply IH].
    apply update_client_row_checked in Hrow as [->|(-> & Hu)]; [exact H1|].
    apply orb_true_iff in Hu as [Hu|Hu]; [|exact Hu].
    apply String.eqb_eq in Hu. now rewrite Hu.
Qed.

Lemma delete_clients_refs caller where_ (st : state) :
  refs_ok st -> refs_ok (Rls.delete_clients caller where_ st).
Proof.
  intros (HT & HC & HP). unfold refs_ok, Rls.delete_clients.
  cbn [users profiles clients tasks]. split; [|split; [|exact HP]].
  - apply List.Forall_forall. intros t' Hin.
    apply in_map_iff in Hin as (t & <- & Hin).
    rewrite List.Forall_forall in HT. destruct (HT t Hin) as [H1 H2].
    set (hit := fun c : client => Rls.is_owner caller (cl_user_id c) && where_ c).
    destruct (on_delete_set_null_same (List.filter hit (clients st)) t)
      as (_ & -> & _).
    split; [|exact H2]. rewrite on_delete_set_null_client.
    destruct (client_id t) as [k|]; [|reflexivity]. cbn [Sql.ref_ok] in H1.
    destruct (Sql.has_id cl_id k (List.filter hit (clients st))) eqn:Hg;
      [reflexivity|].
    cbn [Sql.ref_ok]. rewrite (has_id_filter_split cl_id k hit), Hg in H1.
    exact H1.
  - apply List.Forall_forall. intros c Hin.
    apply filter_In in Hin as [Hin _].
    rewrite List.Forall_forall in HC. now apply HC.
Qed.

Lemma exec_refs_ok (a : action) (st : state) :
  refs_ok st -> refs_ok (exec a st).
Proof.
  intros Hst. pose proof Hst as (HT & HC & HP).
  destruct a as [now u|now uid|user editing data fresh now|caller t
                |user editing data fresh now|caller deleteId|caller pid name];
    cbn [exec].
  - unfold attempt. destruct (insert_auth_user now u st) eqn:E; [|exact Hst].
    apply insert_auth_user_spec in E
      as (_ & _ & Eu & Ec & Et & p & Ep & Hid & _).
    unfold refs_ok. rewrite Eu, Ep, Ec, Et. split; [|split].
    + eapply Forall_impl; [exact HT|]. intros t [H1 H2].
      split; [exact H1 | now apply has_id_snoc].
    + eapply Forall_impl; [exact HC|]. intros c H. now apply has_id_snoc.
    + apply Forall_app. split.
      * eapply Forall_impl; [exact HP|]. intros q H. now apply has_id_snoc.
      * constructor; [|constructor]. rewrite Hid, has_id_app.
        cbn [Sql.has_id existsb]. now rewrite String.eqb_refl, orb_true_r.
  - unfold attempt, sign_in.
    destruct (List.find _ (users st)) as [w|]; [|exact Hst].
    apply (refs_ok_profiles_map _ st); [|exact Hst].
    intros p. now destruct (String.eqb (pr_id p) (id w)).
  - unfold TaskFormPage.onSubmit, attempt.
    destruct user as [uid|]; [|exact Hst]. destruct editing as [tid|].
    + destruct (Rls.update_tasks _ _ _ st) as [st'|] eqn:E; [|exact Hst].
      now apply (update_tasks_refs _ _ _ _ _ E).
    + destruct (Rls.insert_task _ _ st) as [st'|] eqn:E; [|exact Hst].
      apply insert_task_spec in E as (_ & _ & Hu & Hc & ->).
      unfold refs_ok, Rls.with_tasks. cbn [users profiles clients tasks].
      split; [|now split]. apply Forall_app. split; [exact HT|].
      constructor; [now split | constructor].
  - unfold TasksPage.toggleTaskComplete, attempt.
    destruct (Rls.update_tasks _ _ _ st) as [st'|] eqn:E; [|exact Hst].
    now apply (update_tasks_refs _ _ _ _ _ E).
  - unfold ClientFormPage.onSubmit, attempt.
    destruct user as [uid|]; [|exact Hst]. destruct editing as [cid|].
    + destruct (Rls.update_clients _ _ _ st) as [st'|] eqn:E; [|exact Hst].
      now apply (update_clients_refs _ _ _ _ _ E).
    + destruct (Rls.insert_client _ _ st) as [st'|] eqn:E; [|exact Hst].
      apply insert_client_spec in E as (_ & _ & Hu & ->).
      unfold refs_ok, Rls.with_clients. cbn [users profiles clients tasks].
      split; [|split; [|exact HP]].
      * eapply Forall_impl; [exact HT|]. intros t [H1 H2].
        split; [now apply ref_ok_snoc | exact H2].
      * apply Forall_app. split; [exact HC|]. constructor; [exact Hu|constructor].
  - unfold ClientsPage.handleDelete. destruct (or_null deleteId); [|exact Hst].
    now apply delete_clients_refs.
  - unfold ProfilePage.onProfileSubmit. destruct pid as [pid|]; [|exact Hst].
    apply (refs_ok_profiles_map _ st); [|exact Hst].
    intros p.
    now destruct (Rls.is_owner caller (pr_id p) && String.eqb (pr_id p) pid).
Qed.

End References.

(** X19. References never dangle: after any history of actions on an
    empty database every task's client, when it has one, is a client that
    exists, every task and client belongs to a profile that exists, and
    every profile to an identity that exists. In particular a deleted
    client leaves no task pointing at it. *)
Theorem references_never_dangle (history : list action) :
  refs_ok (run history empty_db).
Proof.
  assert (H : forall st, refs_ok st -> refs_ok (run history st)).
  { induction history as [|a h IH]; intros st Hst; [exact Hst|].
    cbn [run fold_left]. apply IH. now apply exec_refs_ok. }
  apply H. repeat split; constructor.
Qed.

(* ===================================================================== *)
(** ** The edit forms and the client search *)
(* ===================================================================== *)

Section Forms.

Lemma mapM_fixed {A} (f : A -> option A) (l : list A) :
  (forall x, In x l -> f x = Some x) -> mapM f l = Some l.
Proof.
  induction l as [|x l IH]; intros H; [reflexivity|].
  cbn [mapM]. rewrite (H x) by now left.
  rewrite IH by (intros y Hy; apply H; now right). reflexivity.
Qed.

Lemma filter_singleton {A} (f : A -> bool) (l : list A) (x : A) :
  List.filter f l = [x] ->
  In x l /\ f x = true /\ forall y, In y l -> f y = true -> y = x.
Proof.
  intros E.
  assert (Hx : In x (List.filter f l)) by (rewrite E; now left).
  apply filter_In in Hx as [Hin Hf]. repeat split; try assumption.
  intros y Hy Hfy.
  assert (H : In y (List.filter f l)) by (apply filter_In; now split).
  rewrite E in H. destruct H as [H|[]]. now symmetry.
Qed.

Lemma or_null_loaded (x : option string) :
  x <> Some "" -> or_null (Some (or_empty x)) = x.
Proof.
  destruct x as [s|]; [|reflexivity]. intros H. cbn [or_empty or_null].
  destruct (String.eqb s "") eqn:E; [|reflexivity].
  apply String.eqb_eq in E. subst s. now destruct H.
Qed.

Lemma or_null_fixed (x : option string) : x <> Some "" -> or_null x = x.
Proof.
  destruct x as [s|]; [|reflexivity]. intros H. cbn [or_null].
  destruct (String.eqb s "") eqn:E; [|reflexivity].
  apply String.eqb_eq in E. subst s. now destruct H.
Qed.

(** A task loaded into the form and written back is the same row. *)
Lemma task_row_round_trip (t : task) :
  description t <> Some "" -> client_id t <> Some "" ->
  Rls.apply_task_patch
    (TaskFormPage.taskData (task_user_id t) (TaskFormPage.loaded t)) t = t.
Proof.
  intros Hd Hc. destruct t as [i u c ti d ty due s cr].
  cbn [description client_id task_user_id] in *.
  unfold Rls.apply_task_patch, TaskFormPage.taskData, TaskFormPage.loaded.
  cbn -[or_null or_empty]. rewrite (or_null_loaded d Hd).
  now rewrite !(or_null_fixed c Hc).
Qed.

Lemma client_row_round_trip (c : client) :
  cl_email c <> Some "" -> cl_phone c <> Some "" ->
  Rls.apply_client_patch
    (ClientFormPage.clientData (cl_user_id c) (ClientFormPage.loaded c)) c = c.
Proof.
  intros He Hp. destruct c as [i u n cpf pt e ph cr].
  cbn [cl_email cl_phone cl_user_id] in *.
  unfold Rls.apply_client_patch, ClientFormPage.clientData,
    ClientFormPage.loaded.
  cbn -[or_null or_empty]. now rewrite (or_null_loaded e He), (or_null_loaded ph Hp).
Qed.

Lemma is_owner_eq (u o : uuid) : Rls.is_owner (Some u) o = true -> o = u.
Proof. cbn. intros H. apply String.eqb_eq in H. now symmetry. Qed.

Lemma startsWith_refl (s : string) : Js.startsWith s s = true.
Proof.
  induction s as [|a s IH]; [reflexivity|].
  cbn [Js.startsWith]. now rewrite Ascii.eqb_refl, IH.
Qed.

Lemma includes_refl (s : string) : Js.includes s s = true.
Proof. destruct s; cbn [Js.includes]; now rewrite startsWith_refl. Qed.

End Forms.

(** X20. Opening the edit form of a task and saving it untouched leaves
    the database as it was (status included), when no optional text of the
    table is empty, as the forms keep it. *)
Theorem task_edit_round_trip (uid tid fresh : uuid) (now : N)
    (data : TaskFormPage.TaskFormData) (st : state) :
  TaskFormPage.fetchTask (Some uid) tid st = Some data ->
  no_empty_text st ->
  TaskFormPage.onSubmit (Some uid) (Some tid) data fresh now st = st.
Proof.
  unfold TaskFormPage.fetchTask, Rls.select_tasks. intros Hfetch [HT _].
  destruct (List.filter _ (tasks st)) as [|t [|? ?]] eqn:E; try discriminate.
  injection Hfetch as <-.
  apply filter_singleton in E as (Hin & Hhit & Honly).
  apply andb_true_iff in Hhit as [Ho _]. apply is_owner_eq in Ho.
  rewrite List.Forall_forall in HT. destruct (HT t Hin) as [Hd Hc].
  cbn [TaskFormPage.onSubmit]. unfold Rls.update_tasks.
  rewrite mapM_fixed; [cbn; now destruct st|].
  intros r Hr. unfold Rls.update_task_row.
  destruct (Rls.is_owner (Some uid) (task_user_id r)
            && String.eqb (task_id r) tid) eqn:Hhit; [|reflexivity].
  rewrite (Honly r Hr Hhit). cbv zeta. subst uid.
  rewrite (task_row_round_trip t Hd Hc).
  cbn [Rls.is_owner]. rewrite !String.eqb_refl.
  rewrite bool_decide_eq_true_2 by reflexivity. reflexivity.
Qed.

Lemma task_edit_round_trip_witness :
  TaskFormPage.onSubmit (Some "u-2") (Some "t-2")
    (TaskFormPage.mkTaskForm "IRPF 2024" (Some "") imposto "2024-01-01"
       (Some "c-1")) "t-9" 9 office = office.
Proof.
  apply (task_edit_round_trip "u-2" "t-2" "t-9" 9 _ office); [reflexivity|].
  split; repeat (constructor; [split; discriminate|]); constructor.
Defined.

(** X21. The same for the client form: loading a client and saving it
    untouched leaves the database as it was. *)
Theorem client_edit_round_trip (uid cid fresh : uuid) (now : N)
    (data : ClientFormPage.ClientForm) (st : state) :
  ClientFormPage.fetchClient (Some uid) cid st = Some data ->
  no_empty_text st ->
  ClientFormPage.onSubmit (Some uid) (Some cid) data fresh now st = st.
Proof.
  unfold ClientFormPage.fetchClient, Rls.select_clients. intros Hfetch [_ HC].
  destruct (List.filter _ (clients st)) as [|c [|? ?]] eqn:E; try discriminate.
  injection Hfetch as <-.
  apply filter_singleton in E as (Hin & Hhit & Honly).
  apply andb_true_iff in Hhit as [Ho _]. apply is_owner_eq in Ho.
  rewrite List.Forall_forall in HC. destruct (HC c Hin) as [He Hp].
  cbn [ClientFormPage.onSubmit]. unfold Rls.update_clients.
  rewrite mapM_fixed; [cbn; now destruct st|].
  intros r Hr. unfold Rls.update_client_row.
  destruct (Rls.is_owner (Some uid) (cl_user_id r)
            && String.eqb (cl_id r) cid) eqn:Hhit; [|reflexivity].
  rewrite (Honly r Hr Hhit). cbv zeta. subst uid.
  rewrite (client_row_round_trip c He Hp).
  cbn [Rls.is_owner]. rewrite !String.eqb_refl. reflexivity.
Qed.

Lemma client_edit_round_trip_witness :
  ClientFormPage.onSubmit (Some "u-2") (Some "c-1")
    (ClientFormPage.mkClientForm "Padaria Sol" "12345678000190" PJ
       (Some "") (Some "")) "c-9" 9 office = office.
Proof.
  apply (client_edit_round_trip "u-2" "c-1" "c-9" 9 _ office); [reflexivity|].
  split; repeat (constructor; [split; discriminate|]); constructor.
Defined.

(** X22. In the client list an empty search shows every client, and a
    client is always found by its whole CPF/CNPJ and by its whole name,
    whatever the case mapping of the language does. *)
Theorem client_found_by_own_number (toLowerCase : string -> string)
    (cs : list client) (c : client) :
  In c cs ->
  ClientsPage.filterClients toLowerCase "" cs = cs /\
  In c (ClientsPage.filterClients toLowerCase (cpf_cnpj c) cs) /\
  In c (ClientsPage.filterClients toLowerCase (cl_name c) cs).
Proof.
  intros Hin. split; [reflexivity|].
  unfold ClientsPage.filterClients. split.
  - destruct (String.eqb (cpf_cnpj c) ""); [exact Hin|].
    apply filter_In. split; [exact Hin|].
    rewrite includes_refl. apply orb_true_r.
  - destruct (String.eqb (cl_name c) ""); [exact Hin|].
    apply filter_In. split; [exact Hin|]. now rewrite includes_refl.
Qed.

Lemma client_found_by_own_number_witness :
  In (mkClient "c-1" "u-2" "Padaria Sol" "12345678000190" PJ None None 3)
     (ClientsPage.filterClients (fun s => s) "12345678000190" (clients office)).
Proof.
  apply (client_found_by_own_number (fun s => s) (clients office)
           (mkClient "c-1" "u-2" "Padaria Sol" "12345678000190" PJ None None 3)).
  left. reflexivity.
Defined.

(** X23. The filters and the indicators of the task list agree: whatever
    the due-date texts, every task listed under "overdue" carries the
    overdue indicator, every task listed under "concluida" the completed
    one, and no task listed under "pendente" the completed one. *)
Theorem filters_agree_with_badges (ts : list task) (now : Js.Date) :
  Forall (fun t => Tasks.badge t now = span_atrasada)
    (Tasks.filterTasks "overdue" ts now) /\
  Forall (fun t => Tasks.badge t now = mkSpan cls_concluida "Concluída")
    (Tasks.filterTasks "concluida" ts now) /\
  Forall (fun t => className (Tasks.badge t now) <> cls_concluida)
    (Tasks.filterTasks "pendente" ts now).
Proof.
  split; [|split]; apply List.Forall_forall; intros t Hin.
  - apply filter_overdue_iff in Hin as (_ & Hs & Hlt).
    apply (badge_overdue_iff t now). split; [congruence | exact Hlt].
  - unfold Tasks.filterTasks in Hin.
    change (Js.seq "concluida" "all") with false in Hin.
    change (Js.seq "concluida" "overdue") with false in Hin. cbv iota in Hin.
    apply filter_In in Hin as [_ Hs].
    unfold Tasks.badge, Tasks.getStatusBadge. now rewrite Hs.
  - unfold Tasks.filterTasks in Hin.
    change (Js.seq "pendente" "all") with false in Hin.
    change (Js.seq "pendente" "overdue") with false in Hin. cbv iota in Hin.
    apply filter_In in Hin as [_ Hs]. rewrite seq_pendente in Hs.
    apply bool_decide_eq_true in Hs.
    unfold Tasks.badge, Tasks.getStatusBadge. rewrite Hs.
    change (Js.seq (status_text pendente) "concluida") with false. cbv iota.
    destruct (Js.lt (due_date t) (Js.today now));
      [|destruct (Js.seq (due_date t) (Js.today now))]; discriminate.
Qed.
